(** * Perpustakaan Digital: the loan lifecycle of [firestoreHelper]

    A shallow embedding of the Firestore helper functions of the library
    application ([addBook], [updateBook], [deleteBook], [getBookById],
    [getAllBooks], [borrowBook], [returnBook], [getBorrowedTransactions],
    [getUserTransactions], [hasUserBorrowedBook]), of the part of the
    Firestore SDK they call (documents of the [books] and [transactions]
    collections, atomic transactions with buffered writes, ordered
    queries, server timestamps and generated document ids), and of what
    the screens compute from them.

    Documents live in finite maps from document id to document.  An
    [async] function is a state transformer over the store that resolves
    with a value or rejects with a thrown error. *)

From stdpp Require Import gmap strings list fin_maps sorting.

Local Open Scope string_scope.

(** ** Data model ([types/index.ts]) *)

(** A Firestore timestamp; [serverTimestamp()] is replaced by the commit
    time of the write that carries it. *)
Definition Timestamp : Type := nat.

(** [Book.status]: ['AVAILABLE' | 'BORROWED']. *)
Inductive BookStatus : Type := AVAILABLE | BORROWED.

(** [Transaction.status]: ['BORROWED' | 'RETURNED'].  The literal
    ['BORROWED'] of a transaction is written [TX_BORROWED], to keep it
    apart from the status of a book. *)
Inductive TransactionStatus : Type := TX_BORROWED | RETURNED.

Inductive Role : Type := admin | member.

Global Instance BookStatus_eq_dec : EqDecision BookStatus.
Proof. solve_decision. Defined.
Global Instance TransactionStatus_eq_dec : EqDecision TransactionStatus.
Proof. solve_decision. Defined.
Global Instance Role_eq_dec : EqDecision Role.
Proof. solve_decision. Defined.

(** [interface User]. *)
Module User.
Record t : Type := mk {
  uid : string;
  email : string;
  role : Role;
  name : string
}.
End User.

(** [interface BookDoc]: a document of the [books] collection.  The
    fields marked [?] in the source are optional. *)
Module BookDoc.
Record t : Type := mk {
  title : string;
  author : string;
  coverUrl : string;
  status : BookStatus;
  description : option string;
  isbn : option string;
  createdAt : option Timestamp;
  updatedAt : option Timestamp
}.

Global Instance eq_dec : EqDecision t.
Proof. solve_decision. Defined.

(** The object literal [{ status, updatedAt }], the only shape with
    which the helpers update a book inside a transaction. *)
Record patch : Type := mk_patch {
  p_status : BookStatus;
  p_updatedAt : Timestamp
}.

(** [update(ref, patch)] merges the fields of the patch into the
    document and keeps the others. *)
Definition merge (p : patch) (d : t) : t :=
  {| title := title d;
     author := author d;
     coverUrl := coverUrl d;
     status := p_status p;
     description := description d;
     isbn := isbn d;
     createdAt := createdAt d;
     updatedAt := Some (p_updatedAt p) |}.
End BookDoc.

(** [interface TransactionDoc]: a document of the [transactions]
    collection, one per loan. *)
Module TransactionDoc.
Record t : Type := mk {
  bookId : string;
  userId : string;
  borrowDate : Timestamp;
  returnDate : option Timestamp;
  status : TransactionStatus;
  bookTitle : option string;
  userName : option string
}.

Global Instance eq_dec : EqDecision t.
Proof. solve_decision. Defined.

(** The object literal [{ status, returnDate }] of [returnBook]. *)
Record patch : Type := mk_patch {
  p_status : TransactionStatus;
  p_returnDate : Timestamp
}.

Definition merge (p : patch) (d : t) : t :=
  {| bookId := bookId d;
     userId := userId d;
     borrowDate := borrowDate d;
     returnDate := Some (p_returnDate p);
     status := p_status p;
     bookTitle := bookTitle d;
     userName := userName d |}.
End TransactionDoc.

(** [interface Book]: a book document together with its id. *)
Record Book : Type := mkBook {
  id : string;
  data : BookDoc.t
}.

Record BorrowBookResponse : Type := mkBorrowBookResponse {
  borrow_transactionId : string;
  borrow_message : string
}.

Record ReturnBookResponse : Type := mkReturnBookResponse {
  return_transactionId : string;
  return_message : string
}.

(** The argument of [addBook]:
    [Omit<BookDoc, 'coverUrl' | 'status' | 'createdAt' | 'updatedAt'>]. *)
Record BookInput : Type := mkBookInput {
  in_title : string;
  in_author : string;
  in_description : option string;
  in_isbn : option string
}.

(** ** The store *)

(** The two collections the helpers write to, [COLLECTIONS.BOOKS] and
    [COLLECTIONS.TRANSACTIONS].  Cover images live in Firebase Storage,
    which holds no document and is not part of this state. *)
Record Firestore : Type := mkFirestore {
  books : gmap string BookDoc.t;
  transactions : gmap string TransactionDoc.t
}.

Definition set_books (f : gmap string BookDoc.t -> gmap string BookDoc.t)
    (db : Firestore) : Firestore :=
  {| books := f (books db); transactions := transactions db |}.

Definition set_transactions
    (f : gmap string TransactionDoc.t -> gmap string TransactionDoc.t)
    (db : Firestore) : Firestore :=
  {| books := books db; transactions := f (transactions db) |}.

(** ** Thrown values and promises *)

(** What a [catch (error: any)] clause of the helpers can receive: an
    [Error] made with [new Error(message)], or a [FirestoreError] of the
    SDK, which carries a provider code next to its message. *)
Inductive Thrown : Type :=
| JsError (message : string)
| FirestoreError (code : string) (message : string).

(** [error.message]. *)
Definition message_of (error : Thrown) : string :=
  match error with
  | JsError m => m
  | FirestoreError _ m => m
  end.

(** [a || b] on strings: the empty string is falsy. *)
Definition or_else (a b : string) : string :=
  match a with
  | EmptyString => b
  | _ => a
  end.

Inductive Promise (A : Type) : Type :=
| Resolved (a : A)
| Rejected (error : Thrown).
Arguments Resolved {A} a.
Arguments Rejected {A} error.

(** What the world outside the program decides for one call of a helper:
    the commit time the server substitutes for [serverTimestamp()], the
    id that [doc(collection)] or [addDoc] generates, the download URL the
    storage hands back for an uploaded cover, whether the backend fails
    this call, and which local images cannot be read.  A failing backend
    (a read that rejects, a commit that cannot be applied, no
    connectivity) rejects the awaited SDK call with [fault] and applies
    no write; [fault] is the error the awaited call ends with, after
    whatever attempts the SDK makes on its own.  [unreadable uri] is the
    error with which [fetch(uri)] rejects for an image the device cannot
    read, whatever the backend does. *)
Record Env : Type := mkEnv {
  now : Timestamp;
  autoId : string;
  downloadURL : string;
  fault : option Thrown;
  unreadable : string -> option Thrown
}.

(** ** Asynchronous functions *)

(** An [async] function over the store. *)
Definition Async (A : Type) : Type := Firestore -> Firestore * Promise A.

Definition async_ret {A} (a : A) : Async A := fun db => (db, Resolved a).

Definition async_throw {A} (error : Thrown) : Async A :=
  fun db => (db, Rejected error).

(** [const x = await m; k x] *)
Definition async_bind {A B} (m : Async A) (k : A -> Async B) : Async B :=
  fun db =>
    match m db with
    | (db', Resolved a) => k a db'
    | (db', Rejected error) => (db', Rejected error)
    end.

(** [try { body } catch (error) { handler }] *)
Definition try_catch {A} (body : Async A) (handler : Thrown -> Async A)
    : Async A :=
  fun db =>
    match body db with
    | (db', Resolved a) => (db', Resolved a)
    | (db', Rejected error) => handler error db'
    end.

Notation "'await' x <- m ; k" := (async_bind m (fun x => k))
  (at level 10, x name, m at level 100, k at level 200, only parsing).

(** ** Transactions ([runTransaction]) *)

(** A write buffered by a transaction until it commits. *)
Inductive Write : Type :=
| UpdateBook (ref : string) (p : BookDoc.patch)
| SetTransaction (ref : string) (d : TransactionDoc.t)
| UpdateTransaction (ref : string) (p : TransactionDoc.patch).

(** The update function passed to [runTransaction]: it reads documents
    of the store as they are when the transaction runs, buffers writes,
    and returns a value or throws. *)
Definition Tx (A : Type) : Type :=
  Firestore -> list Write -> Thrown + (A * list Write).

Definition tx_ret {A} (a : A) : Tx A := fun _ ws => inr (a, ws).

Definition tx_throw {A} (error : Thrown) : Tx A := fun _ _ => inl error.

Definition tx_bind {A B} (m : Tx A) (k : A -> Tx B) : Tx B :=
  fun db ws =>
    match m db ws with
    | inl error => inl error
    | inr (a, ws') => k a db ws'
    end.

Notation "'get' x <- m ; k" := (tx_bind m (fun x => k))
  (at level 10, x name, m at level 100, k at level 200, only parsing).

(** [transaction.get(doc(db, COLLECTIONS.BOOKS, ref))]; [None] is a
    snapshot whose [exists()] is false. *)
Definition tx_get_book (ref : string) : Tx (option BookDoc.t) :=
  fun db ws => inr (books db !! ref, ws).

(** [transaction.get(doc(db, COLLECTIONS.TRANSACTIONS, ref))]. *)
Definition tx_get_transaction (ref : string) : Tx (option TransactionDoc.t) :=
  fun db ws => inr (transactions db !! ref, ws).

Definition tx_write (w : Write) : Tx unit :=
  fun _ ws => inr (tt, (ws ++ [w])%list).

(** [transaction.update(bookRef, p)]. *)
Definition tx_update_book (ref : string) (p : BookDoc.patch) : Tx unit :=
  tx_write (UpdateBook ref p).

(** [transaction.set(transactionDocRef, d)]. *)
Definition tx_set_transaction (ref : string) (d : TransactionDoc.t) : Tx unit :=
  tx_write (SetTransaction ref d).

(** [transaction.update(transactionRef, p)]. *)
Definition tx_update_transaction (ref : string) (p : TransactionDoc.patch)
    : Tx unit :=
  tx_write (UpdateTransaction ref p).

(** One buffered write applied to the store.  [set] creates the document
    or overwrites it; [update] needs the document to exist. *)
Definition apply_write (w : Write) (db : Firestore) : option Firestore :=
  match w with
  | UpdateBook ref p =>
      match books db !! ref with
      | Some d => Some (set_books (insert ref (BookDoc.merge p d)) db)
      | None => None
      end
  | SetTransaction ref d => Some (set_transactions (insert ref d) db)
  | UpdateTransaction ref p =>
      match transactions db !! ref with
      | Some d =>
          Some (set_transactions (insert ref (TransactionDoc.merge p d)) db)
      | None => None
      end
  end.

(** The commit: all buffered writes in order, or none of them. *)
Fixpoint commit (ws : list Write) (db : Firestore) : option Firestore :=
  match ws with
  | [] => Some db
  | w :: ws' =>
      match apply_write w db with
      | Some db' => commit ws' db'
      | None => None
      end
  end.

(** The rejection of a commit one of whose updates finds no document. *)
Definition not_found_error : Thrown :=
  FirestoreError "not-found" "No document to update".

(** [runTransaction(db, updateFunction)]: the update function runs on the
    store, isolated from every other transaction; when it returns, its
    writes are committed together and the promise resolves with its
    value; when it throws, or when the backend fails, nothing is written
    and the promise rejects.  The SDK may run the update function again
    after a failure of the backend before it gives up: [fault] is the
    error the awaited call rejects with in the end. *)
Definition runTransaction {A} (env : Env) (updateFunction : Tx A) : Async A :=
  fun db =>
    match fault env with
    | Some error => (db, Rejected error)
    | None =>
        match updateFunction db [] with
        | inl error => (db, Rejected error)
        | inr (a, ws) =>
            match commit ws db with
            | Some db' => (db', Resolved a)
            | None => (db, Rejected not_found_error)
            end
        end
    end.

(** ** SDK calls outside a transaction *)

(** [getDoc(doc(db, COLLECTIONS.BOOKS, ref))]. *)
Definition getDoc (env : Env) (ref : string) : Async (option BookDoc.t) :=
  fun db =>
    match fault env with
    | Some error => (db, Rejected error)
    | None => (db, Resolved (books db !! ref))
    end.

(** The rejection of [addDoc] when the generated id is taken: [addDoc]
    writes under the precondition that the document does not exist. *)
Definition already_exists_error : Thrown :=
  FirestoreError "already-exists" "Document already exists".

(** [addDoc(collection(db, COLLECTIONS.BOOKS), bookDoc)]; resolves with
    the id of the new document. *)
Definition addDoc (env : Env) (bookDoc : BookDoc.t) : Async string :=
  fun db =>
    match fault env with
    | Some error => (db, Rejected error)
    | None =>
        match books db !! autoId env with
        | Some _ => (db, Rejected already_exists_error)
        | None =>
            (set_books (insert (autoId env) bookDoc) db, Resolved (autoId env))
        end
    end.

(** [deleteDoc(doc(db, COLLECTIONS.BOOKS, ref))]; deleting a document
    that does not exist succeeds. *)
Definition deleteDoc (env : Env) (ref : string) : Async unit :=
  fun db =>
    match fault env with
    | Some error => (db, Rejected error)
    | None => (set_books (delete ref) db, Resolved tt)
    end.

(** A query on the [transactions] collection: the conjunction of its
    [where(field, '==', value)] clauses. *)
Definition Query : Type := list (TransactionDoc.t -> bool).

Definition matches (q : Query) (d : TransactionDoc.t) : bool :=
  forallb (fun clause => clause d) q.

Definition where_userId (v : string) (d : TransactionDoc.t) : bool :=
  bool_decide (TransactionDoc.userId d = v).
Definition where_bookId (v : string) (d : TransactionDoc.t) : bool :=
  bool_decide (TransactionDoc.bookId d = v).
Definition where_status (v : TransactionStatus) (d : TransactionDoc.t) : bool :=
  bool_decide (TransactionDoc.status d = v).

(** [getDocs(q)]: the documents of the collection that match, with
    their ids ([querySnapshot.docs]). *)
Definition getDocs (env : Env) (q : Query)
    : Async (list (string * TransactionDoc.t)) :=
  fun db =>
    match fault env with
    | Some error => (db, Rejected error)
    | None =>
        (db, Resolved (List.filter (fun kd => matches q (snd kd))
                         (map_to_list (transactions db))))
    end.

(** [querySnapshot.empty]. *)
Definition empty_snapshot {A} (docs : list A) : bool :=
  match docs with
  | [] => true
  | _ :: _ => false
  end.

(** ** Cover images *)

(** The bytes of the image read from a local URI. *)
Inductive Blob : Type := blob_of (uri : string).

(** [uriToBlob(uri)]: [fetch(uri)] and [response.blob()]; rejects when
    the image cannot be read. *)
Definition uriToBlob (env : Env) (uri : string) : Async Blob :=
  fun db =>
    match unreadable env uri with
    | Some error => (db, Rejected error)
    | None => (db, Resolved (blob_of uri))
    end.

(** [uploadBytes(storageRef, blob)] followed by
    [getDownloadURL(snapshot.ref)]. *)
Definition uploadBytes (env : Env) (blob : Blob) : Async string :=
  fun db =>
    match fault env with
    | Some error => (db, Rejected error)
    | None => (db, Resolved (downloadURL env))
    end.

(** [uploadImage(uri, fileName)]: reads the image, stores it and
    resolves with its download URL; every failure, of the read or of the
    storage, is rethrown as one fixed error.  The file name
    ([generateCoverFileName]) only names the object in the storage
    bucket. *)
Definition uploadImage (env : Env) (uri : string) : Async string :=
  try_catch
    (await blob <- uriToBlob env uri;
     await downloadURL <- uploadBytes env blob;
     async_ret downloadURL)
    (fun _ => async_throw (JsError "Gagal upload gambar. Silakan coba lagi.")).

(** The cover picked in a form, if one was picked, can be read. *)
Definition cover_readable (env : Env) (coverImageUri : option string) : bool :=
  match coverImageUri with
  | None | Some EmptyString => true
  | Some uri =>
      match unreadable env uri with
      | None => true
      | Some _ => false
      end
  end.

(** [deleteImage(url)]: failures are logged and not rethrown; no
    document is touched. *)
Definition deleteImage (env : Env) (url : string) : Async unit :=
  async_ret tt.

(** ** Book operations *)

(** [getBookById(bookId)]. *)
Definition getBookById (env : Env) (bookId : string) : Async (option Book) :=
  try_catch
    (await bookSnap <- getDoc env bookId;
     match bookSnap with
     | None => async_ret None
     | Some data => async_ret (Some {| id := bookId; data := data |})
     end)
    (fun _ =>
       async_throw (JsError "Gagal mengambil detail buku. Silakan coba lagi.")).

(** An optional string field that is kept only when it is neither
    [undefined] nor ['']. *)
Definition optional_field (v : option string) : option string :=
  match v with
  | Some EmptyString => None
  | _ => v
  end.

(** [addBook(bookData, coverImageUri)]: a new book always starts
    [AVAILABLE]. *)
Definition addBook (env : Env) (bookData : BookInput)
    (coverImageUri : option string) : Async string :=
  try_catch
    (await coverUrl <-
       match coverImageUri with
       | None | Some EmptyString => async_ret ""
       | Some uri => uploadImage env uri
       end;
     let bookDoc :=
       {| BookDoc.title := in_title bookData;
          BookDoc.author := in_author bookData;
          BookDoc.coverUrl := coverUrl;
          BookDoc.status := AVAILABLE;
          BookDoc.description := optional_field (in_description bookData);
          BookDoc.isbn := optional_field (in_isbn bookData);
          BookDoc.createdAt := Some (now env);
          BookDoc.updatedAt := Some (now env) |} in
     await docRef <- addDoc env bookDoc;
     async_ret docRef)
    (fun _ => async_throw (JsError "Gagal menambah buku. Silakan coba lagi.")).

(** [deleteBook(bookId)]: no check of the book's status, and no write to
    the [transactions] collection. *)
Definition deleteBook (env : Env) (bookId : string) : Async unit :=
  try_catch
    (await book <- getBookById env bookId;
     await _ <-
       match book with
       | Some b =>
           match BookDoc.coverUrl (data b) with
           | EmptyString => async_ret tt
           | url => deleteImage env url
           end
       | None => async_ret tt
       end;
     deleteDoc env bookId)
    (fun _ => async_throw (JsError "Gagal hapus buku. Silakan coba lagi.")).

(** ** Loan operations *)

(** [borrowBook(bookId, user)]. *)
Definition borrowBook (env : Env) (bookId : string) (user : User.t)
    : Async BorrowBookResponse :=
  try_catch
    (await result <- runTransaction env
       (get bookSnap <- tx_get_book bookId;
        match bookSnap with
        | None => tx_throw (JsError "Buku tidak ditemukan.")
        | Some bookData =>
            match BookDoc.status bookData with
            | BORROWED => tx_throw (JsError "Buku sedang dipinjam.")
            | AVAILABLE =>
                get _ <- tx_update_book bookId
                  {| BookDoc.p_status := BORROWED;
                     BookDoc.p_updatedAt := now env |};
                let transactionDocRef := autoId env in
                let transactionData :=
                  {| TransactionDoc.bookId := bookId;
                     TransactionDoc.userId := User.uid user;
                     TransactionDoc.borrowDate := now env;
                     TransactionDoc.returnDate := None;
                     TransactionDoc.status := TX_BORROWED;
                     TransactionDoc.bookTitle := Some (BookDoc.title bookData);
                     TransactionDoc.userName := Some (User.name user) |} in
                get _ <- tx_set_transaction transactionDocRef transactionData;
                tx_ret transactionDocRef
            end
        end);
     async_ret {| borrow_transactionId := result;
                  borrow_message := "Buku berhasil dipinjam!" |})
    (fun error =>
       async_throw
         (JsError (or_else (message_of error)
                     "Gagal meminjam buku. Silakan coba lagi."))).

(** [returnBook(transactionId)]. *)
Definition returnBook (env : Env) (transactionId : string)
    : Async ReturnBookResponse :=
  try_catch
    (await _ <- runTransaction env
       (get transactionSnap <- tx_get_transaction transactionId;
        match transactionSnap with
        | None => tx_throw (JsError "Transaksi tidak ditemukan.")
        | Some transactionData =>
            match TransactionDoc.status transactionData with
            | RETURNED =>
                tx_throw (JsError "Buku sudah dikembalikan sebelumnya.")
            | TX_BORROWED =>
                let bookRef := TransactionDoc.bookId transactionData in
                get bookSnap <- tx_get_book bookRef;
                match bookSnap with
                | None => tx_throw (JsError "Buku tidak ditemukan.")
                | Some _ =>
                    get _ <- tx_update_book bookRef
                      {| BookDoc.p_status := AVAILABLE;
                         BookDoc.p_updatedAt := now env |};
                    tx_update_transaction transactionId
                      {| TransactionDoc.p_status := RETURNED;
                         TransactionDoc.p_returnDate := now env |}
                end
            end
        end);
     async_ret {| return_transactionId := transactionId;
                  return_message := "Buku berhasil dikembalikan!" |})
    (fun error =>
       async_throw
         (JsError (or_else (message_of error)
                     "Gagal mengembalikan buku. Silakan coba lagi."))).

(** [hasUserBorrowedBook(userId, bookId)]: a failed query is logged and
    answered [false]. *)
Definition hasUserBorrowedBook (env : Env) (userId bookId : string)
    : Async bool :=
  try_catch
    (let q := [where_userId userId; where_bookId bookId;
               where_status TX_BORROWED] in
     await querySnapshot <- getDocs env q;
     async_ret (negb (empty_snapshot querySnapshot)))
    (fun _ => async_ret false).

(** ** The operations as transitions of the store *)

(** A call of one of the helpers that write documents. *)
Inductive Op : Type :=
| AddBook (bookData : BookInput) (coverImageUri : option string)
| DeleteBook (bookId : string)
| BorrowBook (bookId : string) (user : User.t)
| ReturnBook (transactionId : string).

(** The store after the call, whether the promise resolved or rejected. *)
Definition run (env : Env) (op : Op) (db : Firestore) : Firestore :=
  match op with
  | AddBook bookData coverImageUri =>
      fst (addBook env bookData coverImageUri db)
  | DeleteBook bookId => fst (deleteBook env bookId db)
  | BorrowBook bookId user => fst (borrowBook env bookId user db)
  | ReturnBook transactionId => fst (returnBook env transactionId db)
  end.

(** The three operations of the loan lifecycle: every helper that writes
    documents except [deleteBook]. *)
Definition add_borrow_return (op : Op) : bool :=
  match op with
  | DeleteBook _ => false
  | _ => true
  end.

Definition any_op (op : Op) : bool := true.

(** Ids generated by Firestore are new to the store: no document has the
    id, and no loan refers to it. *)
Definition fresh_id (i : string) (db : Firestore) : Prop :=
  books db !! i = None /\
  transactions db !! i = None /\
  map_Forall (fun _ d => TransactionDoc.bookId d <> i) (transactions db).

(** One call of an allowed operation, in an environment whose generated
    id is new. *)
Definition step (allowed : Op -> bool) (db db' : Firestore) : Prop :=
  exists env op,
    allowed op = true /\ fresh_id (autoId env) db /\ db' = run env op db.

(** Any sequence of such calls. *)
Definition reachable (allowed : Op -> bool) : relation Firestore :=
  rtc (step allowed).

(** ** Loans of a book *)

(** The loan entries that refer to book [b] and have the given status. *)
Definition loans_of (st : TransactionStatus) (b : string) (db : Firestore)
    : gmap string TransactionDoc.t :=
  filter (fun kd => TransactionDoc.bookId (snd kd) = b /\
                    TransactionDoc.status (snd kd) = st)
    (transactions db).

(** The number of loan entries of book [b] that are still [BORROWED]. *)
Definition outstanding (b : string) (db : Firestore) : nat :=
  size (loans_of TX_BORROWED b db).

(** The invariant of the data model in the words of the specification:
    a book is [BORROWED] if and only if exactly one loan entry that
    refers to it is [BORROWED]. *)
Definition spec_invariant (db : Firestore) : Prop :=
  map_Forall
    (fun b d => BookDoc.status d = BORROWED <->
                outstanding b db = 1)
    (books db).

(** The same with the case of an [AVAILABLE] book spelled out: a
    [BORROWED] book has exactly one [BORROWED] loan entry, an [AVAILABLE]
    book has none. *)
Definition loan_count (st : BookStatus) : nat :=
  match st with
  | BORROWED => 1
  | AVAILABLE => 0
  end.

Definition loan_invariant (db : Firestore) : Prop :=
  map_Forall (fun b d => outstanding b db = loan_count (BookDoc.status d))
    (books db).

(** ** The failure taxonomy of the specification *)

Inductive FailureKind : Type := NotFound | Conflict | TransientFailure.

Global Instance FailureKind_eq_dec : EqDecision FailureKind.
Proof. solve_decision. Defined.

(** The taxonomy read on the messages that [borrowBook] and [returnBook]
    write themselves: the two checks of existence, the two checks of the
    status, and the two fallbacks of the [catch] clauses.  Any other
    message is outside the taxonomy. *)
Definition spec_failure_kind (message : string) : option FailureKind :=
  if String.eqb message "Buku tidak ditemukan." then Some NotFound
  else if String.eqb message "Transaksi tidak ditemukan." then Some NotFound
  else if String.eqb message "Buku sedang dipinjam." then Some Conflict
  else if String.eqb message "Buku sudah dikembalikan sebelumnya."
  then Some Conflict
  else if String.eqb message "Gagal meminjam buku. Silakan coba lagi."
  then Some TransientFailure
  else if String.eqb message "Gagal mengembalikan buku. Silakan coba lagi."
  then Some TransientFailure
  else None.

(** ** Sample data *)

Definition ani : User.t := User.mk "u1" "ani@example.com" member "Ani".
Definition budi : User.t := User.mk "u2" "budi@example.com" member "Budi".

Definition novel (st : BookStatus) : BookDoc.t :=
  BookDoc.mk "Laskar Pelangi" "Andrea Hirata" "" st None None (Some 1) (Some 1).

Definition loan (b u : string) (st : TransactionStatus)
    (returned : option Timestamp) : TransactionDoc.t :=
  TransactionDoc.mk b u 2 returned st (Some "Laskar Pelangi") (Some "Ani").

(** A call at commit time [t] with generated id [i] and a working
    backend. *)
Definition online (t : Timestamp) (i : string) : Env :=
  mkEnv t i "" None (fun _ => None).

(** A call whose backend cannot be reached. *)
Definition offline (t : Timestamp) (i : string) : Env :=
  mkEnv t i ""
    (Some (FirestoreError "unavailable"
             "Failed to get document because the client is offline."))
    (fun _ => None).

(** A call with a working backend on a device that cannot read the
    image "file:///gone.jpg". *)
Definition lost_cover (t : Timestamp) (i : string) : Env :=
  mkEnv t i "https://storage.example/cover.jpg" None
    (fun uri =>
       if String.eqb uri "file:///gone.jpg"
       then Some (JsError "Network request failed")
       else None).

(** One available book, no loan. *)
Definition shelf : Firestore :=
  mkFirestore {[ "b1" := novel AVAILABLE ]} ∅.

(** The book lent to Ani. *)
Definition lent : Firestore :=
  mkFirestore {[ "b1" := novel BORROWED ]}
    {[ "t1" := loan "b1" "u1" TX_BORROWED None ]}.

(** The loan closed again. *)
Definition closed : Firestore :=
  mkFirestore {[ "b1" := novel AVAILABLE ]}
    {[ "t1" := loan "b1" "u1" RETURNED (Some 7) ]}.

(** The book deleted while lent. *)
Definition orphaned : Firestore :=
  mkFirestore ∅ {[ "t1" := loan "b1" "u1" TX_BORROWED None ]}.

(** An available book to which two open loan entries refer. *)
Definition doubled : Firestore :=
  mkFirestore {[ "b1" := novel AVAILABLE ]}
    (<[ "t1" := loan "b1" "u1" TX_BORROWED None ]>
       {[ "t2" := loan "b1" "u2" TX_BORROWED None ]}).

(** ** Lists of books and loans *)

(** [interface Transaction]: a loan entry together with its id. *)
Module Transaction.
Record t : Type := mk {
  id : string;
  data : TransactionDoc.t
}.
End Transaction.

(** [orderBy('borrowDate', 'desc')]: the later loan comes first.  The
    order among loans of the same instant is left to the backend. *)
Definition newer_loan (x y : string * TransactionDoc.t) : Prop :=
  TransactionDoc.borrowDate (snd y) <= TransactionDoc.borrowDate (snd x).

Global Instance newer_loan_dec x y : Decision (newer_loan x y).
Proof. unfold newer_loan. apply _. Defined.

(** [getDocs(query(transactionsRef, ...where, orderBy('borrowDate', 'desc')))]. *)
Definition getDocsByBorrowDate (env : Env) (q : Query)
    : Async (list (string * TransactionDoc.t)) :=
  await docs <- getDocs env q;
  async_ret (merge_sort newer_loan docs).

(** [{ id: doc.id, ...data }] for a loan entry. *)
Definition to_transaction (kd : string * TransactionDoc.t) : Transaction.t :=
  {| Transaction.id := fst kd; Transaction.data := snd kd |}.

(** [getBorrowedTransactions()]. *)
Definition getBorrowedTransactions (env : Env) : Async (list Transaction.t) :=
  try_catch
    (await querySnapshot <-
       getDocsByBorrowDate env [where_status TX_BORROWED];
     async_ret (map to_transaction querySnapshot))
    (fun _ =>
       async_throw
         (JsError "Gagal mengambil daftar transaksi. Silakan coba lagi.")).

(** [getUserTransactions(userId)]. *)
Definition getUserTransactions (env : Env) (userId : string)
    : Async (list Transaction.t) :=
  try_catch
    (await querySnapshot <- getDocsByBorrowDate env [where_userId userId];
     async_ret (map to_transaction querySnapshot))
    (fun _ =>
       async_throw
         (JsError "Gagal mengambil riwayat peminjaman. Silakan coba lagi.")).

(** The sort key of [orderBy('createdAt', 'desc')]. *)
Definition created (kd : string * BookDoc.t) : Timestamp :=
  default 0 (BookDoc.createdAt (snd kd)).

Definition newer_book (x y : string * BookDoc.t) : Prop :=
  created y <= created x.

Global Instance newer_book_dec x y : Decision (newer_book x y).
Proof. unfold newer_book. apply _. Defined.

(** [getDocs(query(booksRef, orderBy('createdAt', 'desc')))].  A query
    ordered by a field returns only the documents that have the field. *)
Definition getDocsByCreatedAt (env : Env) : Async (list (string * BookDoc.t)) :=
  fun db =>
    match fault env with
    | Some error => (db, Rejected error)
    | None =>
        (db, Resolved
               (merge_sort newer_book
                  (List.filter
                     (fun kd => bool_decide (is_Some (BookDoc.createdAt (snd kd))))
                     (map_to_list (books db)))))
    end.

(** [{ id: doc.id, ...data }] for a book. *)
Definition to_book (kd : string * BookDoc.t) : Book :=
  {| id := fst kd; data := snd kd |}.

(** [getAllBooks()]. *)
Definition getAllBooks (env : Env) : Async (list Book) :=
  try_catch
    (await querySnapshot <- getDocsByCreatedAt env;
     async_ret (map to_book querySnapshot))
    (fun _ =>
       async_throw
         (JsError "Gagal mengambil daftar buku. Silakan coba lagi.")).

(** ** Updating a book *)

(** A key of a [Partial<...>] object: not there, there with the value
    [undefined], or there with a value. *)
Inductive Field (A : Type) : Type :=
| absent
| undefined
| value (a : A).
Arguments absent {A}.
Arguments undefined {A}.
Arguments value {A} a.

(** Reading the key: [undefined] unless it holds a value. *)
Definition read {A} (f : Field A) : option A :=
  match f with
  | value a => Some a
  | _ => None
  end.

(** [Partial<Omit<BookDoc, 'createdAt'>>], the [updates] of
    [updateBook] and the data of [updateDoc]. *)
Record BookUpdates : Type := mkBookUpdates {
  u_title : Field string;
  u_author : Field string;
  u_coverUrl : Field string;
  u_status : Field BookStatus;
  u_description : Field string;
  u_isbn : Field string;
  u_updatedAt : Field Timestamp
}.

Definition is_undefined {A} (f : Field A) : bool :=
  match f with
  | undefined => true
  | _ => false
  end.

(** Some key of the data holds [undefined]. *)
Definition has_undefined (u : BookUpdates) : bool :=
  is_undefined (u_title u) || is_undefined (u_author u) ||
  is_undefined (u_coverUrl u) || is_undefined (u_status u) ||
  is_undefined (u_description u) || is_undefined (u_isbn u) ||
  is_undefined (u_updatedAt u).

(** A field of the document after the update: the value of the key when
    the data has it, the old field otherwise. *)
Definition updated {A} (f : Field A) (old : A) : A :=
  match f with
  | value a => a
  | _ => old
  end.

Definition updated_optional {A} (f : Field A) (old : option A) : option A :=
  match f with
  | value a => Some a
  | _ => old
  end.

Definition apply_updates (u : BookUpdates) (d : BookDoc.t) : BookDoc.t :=
  {| BookDoc.title := updated (u_title u) (BookDoc.title d);
     BookDoc.author := updated (u_author u) (BookDoc.author d);
     BookDoc.coverUrl := updated (u_coverUrl u) (BookDoc.coverUrl d);
     BookDoc.status := updated (u_status u) (BookDoc.status d);
     BookDoc.description :=
       updated_optional (u_description u) (BookDoc.description d);
     BookDoc.isbn := updated_optional (u_isbn u) (BookDoc.isbn d);
     BookDoc.createdAt := BookDoc.createdAt d;
     BookDoc.updatedAt :=
       updated_optional (u_updatedAt u) (BookDoc.updatedAt d) |}.

(** The rejection of a write whose data holds [undefined]: the SDK
    refuses the value unless [ignoreUndefinedProperties] is set, and
    [getFirestore(app)] does not set it. *)
Definition invalid_argument_error : Thrown :=
  FirestoreError "invalid-argument" "Unsupported field value: undefined".

(** [updateDoc(doc(db, COLLECTIONS.BOOKS, ref), data)]: the document must
    exist; the keys of the data replace its fields. *)
Definition updateDoc (env : Env) (ref : string) (data : BookUpdates)
    : Async unit :=
  fun db =>
    if has_undefined data then (db, Rejected invalid_argument_error)
    else
      match fault env with
      | Some error => (db, Rejected error)
      | None =>
          match books db !! ref with
          | Some d =>
              (set_books (insert ref (apply_updates data d)) db, Resolved tt)
          | None => (db, Rejected not_found_error)
          end
      end.

(** [{ ...updates, ...(coverUrl && { coverUrl }), updatedAt: serverTimestamp() }]. *)
Definition update_data (env : Env) (updates : BookUpdates)
    (coverUrl : option string) : BookUpdates :=
  {| u_title := u_title updates;
     u_author := u_author updates;
     u_coverUrl :=
       match coverUrl with
       | None | Some EmptyString => u_coverUrl updates
       | Some url => value url
       end;
     u_status := u_status updates;
     u_description := u_description updates;
     u_isbn := u_isbn updates;
     u_updatedAt := value (now env) |}.

(** [updateBook(bookId, updates, newCoverImageUri)]. *)
Definition updateBook (env : Env) (bookId : string) (updates : BookUpdates)
    (newCoverImageUri : option string) : Async unit :=
  try_catch
    (await currentBook <- getBookById env bookId;
     await coverUrl <-
       match newCoverImageUri with
       | None | Some EmptyString => async_ret (read (u_coverUrl updates))
       | Some uri =>
           await url <- uploadImage env uri;
           await _ <-
             match currentBook with
             | Some b =>
                 match BookDoc.coverUrl (data b) with
                 | EmptyString => async_ret tt
                 | old => deleteImage env old
                 end
             | None => async_ret tt
             end;
           async_ret (Some url)
       end;
     updateDoc env bookId (update_data env updates coverUrl))
    (fun _ => async_throw (JsError "Gagal update buku. Silakan coba lagi.")).

(** ** The screens *)

(** [handleToggleStatus] of the book detail screen: the updates
    [{ status: newStatus }] it passes to [updateBook] for the book it
    shows. *)
Definition toggle_updates (book : Book) : BookUpdates :=
  let newStatus :=
    match BookDoc.status (data book) with
    | AVAILABLE => BORROWED
    | BORROWED => AVAILABLE
    end in
  mkBookUpdates absent absent absent (value newStatus) absent absent absent.

(** [x || undefined] as the value of a key. *)
Definition or_undefined (s : string) : Field string :=
  match s with
  | EmptyString => undefined
  | _ => value s
  end.

(** [handleSaveEdit] of the book detail screen: the updates
    [{ title, author, description: description || undefined }] it passes
    to [updateBook] for the fields of the form. *)
Definition save_edit_updates (title author description : string)
    : BookUpdates :=
  mkBookUpdates (value title) (value author) absent absent
    (or_undefined description) absent absent.

(** [handleReturn] of the return screen, once confirmed: the list the
    screen shows afterwards.  A failure is shown in an alert and the list
    stays. *)
Definition handleReturn (env : Env) (transaction : Transaction.t)
    (transactions : list Transaction.t) : Async (list Transaction.t) :=
  try_catch
    (await _ <- returnBook env (Transaction.id transaction);
     async_ret
       (List.filter
          (fun t => negb (String.eqb (Transaction.id t)
                            (Transaction.id transaction)))
          transactions))
    (fun _ => async_ret transactions).

(** The statistics of the admin dashboard. *)
Record DashboardStats : Type := mkDashboardStats {
  totalBooks : nat;
  availableBooks : nat;
  borrowedBooks : nat;
  activeBorrows : nat
}.

Definition has_status (st : BookStatus) (b : Book) : bool :=
  bool_decide (BookDoc.status (data b) = st).

(** [fetchDashboardData]: the statistics after the fetch; when a read
    fails the error is logged and the statistics stay. *)
Definition fetchDashboardData (env : Env) (stats : DashboardStats)
    : Async DashboardStats :=
  try_catch
    (await books <- getAllBooks env;
     await borrowedTransactions <- getBorrowedTransactions env;
     async_ret
       {| totalBooks := length books;
          availableBooks := length (List.filter (has_status AVAILABLE) books);
          borrowedBooks := length (List.filter (has_status BORROWED) books);
          activeBorrows := length borrowedTransactions |})
    (fun _ => async_ret stats).

(** The filter tabs of the history screen. *)
Module FilterType.
Inductive t : Type := all | borrowed | returned.
End FilterType.

(** [filteredTransactions] of the history screen. *)
Definition filteredTransactions (filter : FilterType.t)
    (transactions : list Transaction.t) : list Transaction.t :=
  List.filter
    (fun t =>
       match filter with
       | FilterType.all => true
       | FilterType.borrowed =>
           bool_decide (TransactionDoc.status (Transaction.data t) = TX_BORROWED)
       | FilterType.returned =>
           bool_decide (TransactionDoc.status (Transaction.data t) = RETURNED)
       end)
    transactions.

(** [borrowedCount] and [returnedCount] of the history screen. *)
Definition borrowedCount (transactions : list Transaction.t) : nat :=
  length
    (List.filter
       (fun t =>
          bool_decide (TransactionDoc.status (Transaction.data t) = TX_BORROWED))
       transactions).

Definition returnedCount (transactions : list Transaction.t) : nat :=
  length
    (List.filter
       (fun t =>
          bool_decide (TransactionDoc.status (Transaction.data t) = RETURNED))
       transactions).

(** The later loan first, on the entries the helpers return. *)
Definition newer (x y : Transaction.t) : Prop :=
  TransactionDoc.borrowDate (Transaction.data y)
  <= TransactionDoc.borrowDate (Transaction.data x).

(** The entries an ordered query on the loan entries [m] resolves
    with. *)
Definition query_answer (q : Query) (m : gmap string TransactionDoc.t)
    : list Transaction.t :=
  map to_transaction
    (merge_sort newer_loan
       (List.filter (fun kd => matches q (snd kd)) (map_to_list m))).

(** The book created later first, on the books [getAllBooks] returns. *)
Definition newer_created (x y : Book) : Prop :=
  default 0 (BookDoc.createdAt (data y))
  <= default 0 (BookDoc.createdAt (data x)).

(** ** Further invariants and sample data *)

(** A loan entry has a [returnDate] exactly when it is [RETURNED]. *)
Definition dates_consistent (db : Firestore) : Prop :=
  map_Forall
    (fun _ d => is_Some (TransactionDoc.returnDate d) <->
                TransactionDoc.status d = RETURNED)
    (transactions db).

(** Every book has the [createdAt] field. *)
Definition all_created (db : Firestore) : Prop :=
  map_Forall (fun _ d => is_Some (BookDoc.createdAt d)) (books db).

(** The form of a new book with an empty description. *)
Definition novel_input : BookInput :=
  mkBookInput "Bumi Manusia" "Pramoedya Ananta Toer" (Some "") None.

(** * Properties *)

(** ** The outcome of each helper, case by case *)

Section Outcomes.
Variable env : Env.
Variable db : Firestore.

(** [borrowBook] along the four paths of its transaction. *)
Lemma borrowBook_cases bookId user :
  borrowBook env bookId user db =
  match fault env with
  | Some error =>
      (db, Rejected (JsError (or_else (message_of error)
                                "Gagal meminjam buku. Silakan coba lagi.")))
  | None =>
      match books db !! bookId with
      | None => (db, Rejected (JsError "Buku tidak ditemukan."))
      | Some bookData =>
          match BookDoc.status bookData with
          | BORROWED => (db, Rejected (JsError "Buku sedang dipinjam."))
          | AVAILABLE =>
              ({| books :=
                    <[bookId := BookDoc.merge
                                  (BookDoc.mk_patch BORROWED (now env))
                                  bookData]> (books db);
                  transactions :=
                    <[autoId env :=
                        TransactionDoc.mk bookId (User.uid user) (now env)
                          None TX_BORROWED (Some (BookDoc.title bookData))
                          (Some (User.name user))]> (transactions db) |},
               Resolved (mkBorrowBookResponse (autoId env)
                           "Buku berhasil dipinjam!"))
          end
      end
  end.
Proof.
  unfold borrowBook, try_catch, async_bind, runTransaction.
  destruct (fault env) as [error|]; [reflexivity|].
  unfold tx_bind, tx_get_book.
  destruct (books db !! bookId) as [bookData|] eqn:Hbook; [|reflexivity].
  destruct (BookDoc.status bookData); [|reflexivity].
  cbn. rewrite Hbook. reflexivity.
Qed.

(** [returnBook] along the five paths of its transaction. *)
Lemma returnBook_cases transactionId :
  returnBook env transactionId db =
  match fault env with
  | Some error =>
      (db, Rejected (JsError (or_else (message_of error)
                                "Gagal mengembalikan buku. Silakan coba lagi.")))
  | None =>
      match transactions db !! transactionId with
      | None => (db, Rejected (JsError "Transaksi tidak ditemukan."))
      | Some transactionData =>
          match TransactionDoc.status transactionData with
          | RETURNED =>
              (db, Rejected (JsError "Buku sudah dikembalikan sebelumnya."))
          | TX_BORROWED =>
              match books db !! TransactionDoc.bookId transactionData with
              | None => (db, Rejected (JsError "Buku tidak ditemukan."))
              | Some bookData =>
                  ({| books :=
                        <[TransactionDoc.bookId transactionData :=
                            BookDoc.merge
                              (BookDoc.mk_patch AVAILABLE (now env))
                              bookData]> (books db);
                      transactions :=
                        <[transactionId :=
                            TransactionDoc.merge
                              (TransactionDoc.mk_patch RETURNED (now env))
                              transactionData]> (transactions db) |},
                   Resolved (mkReturnBookResponse transactionId
                               "Buku berhasil dikembalikan!"))
              end
          end
      end
  end.
Proof.
  unfold returnBook, try_catch, async_bind, runTransaction.
  destruct (fault env) as [error|]; [reflexivity|].
  unfold tx_bind, tx_get_transaction, tx_get_book.
  destruct (transactions db !! transactionId) as [td|] eqn:Hloan;
    [|reflexivity].
  destruct (TransactionDoc.status td); [|reflexivity].
  destruct (books db !! TransactionDoc.bookId td) as [bd|] eqn:Hbook;
    [|reflexivity].
  cbn. rewrite Hbook. cbn. rewrite Hloan. reflexivity.
Qed.

(** [deleteBook]: the document is deleted unless the backend fails. *)
Lemma deleteBook_cases bookId :
  deleteBook env bookId db =
  match fault env with
  | Some _ => (db, Rejected (JsError "Gagal hapus buku. Silakan coba lagi."))
  | None => (set_books (delete bookId) db, Resolved tt)
  end.
Proof.
  unfold deleteBook, getBookById, getDoc, deleteDoc, deleteImage,
    try_catch, async_bind, async_ret, async_throw.
  destruct (fault env) as [error|] eqn:Hfault; [reflexivity|].
  destruct (books db !! bookId) as [bd|]; cbn; rewrite ?Hfault.
  - destruct (BookDoc.coverUrl bd); cbn; rewrite ?Hfault; reflexivity.
  - reflexivity.
Qed.

(** [addBook] either leaves the store as it is or adds one [AVAILABLE]
    book under the generated id, which no book had. *)
Lemma addBook_store bookData coverImageUri :
  fst (addBook env bookData coverImageUri db) = db \/
  exists d,
    BookDoc.status d = AVAILABLE /\
    books db !! autoId env = None /\
    fst (addBook env bookData coverImageUri db)
    = set_books (insert (autoId env) d) db.
Proof.
  unfold addBook, uploadImage, uriToBlob, uploadBytes, addDoc, try_catch,
    async_bind, async_ret, async_throw.
  destruct (fault env) as [error|] eqn:Hfault.
  - left. destruct coverImageUri as [[|c uri]|]; cbn;
      try destruct (unreadable env (String c uri)); cbn; rewrite ?Hfault;
      reflexivity.
  - destruct (books db !! autoId env) as [old|] eqn:Hold.
    + left. destruct coverImageUri as [[|c uri]|]; cbn;
        try destruct (unreadable env (String c uri)); cbn;
        rewrite ?Hfault, ?Hold; reflexivity.
    + destruct coverImageUri as [[|c uri]|]; cbn;
        try destruct (unreadable env (String c uri)); cbn;
        rewrite ?Hfault, ?Hold; cbn;
        first [ by left
              | right; eexists; split; [|split]; [| |reflexivity];
                reflexivity ].
Qed.
End Outcomes.

(** ** Borrowing *)

(** A rejected or failed [borrowBook] writes nothing. *)
Lemma borrowBook_rejected_unchanged env bookId user db db' error :
  borrowBook env bookId user db = (db', Rejected error) -> db' = db.
Proof.
  rewrite borrowBook_cases.
  destruct (fault env); [congruence|].
  destruct (books db !! bookId) as [bookData|]; [|congruence].
  destruct (BookDoc.status bookData); congruence.
Qed.

(** With a working backend, borrowing a [BORROWED] book is rejected with
    the message of the status check and writes nothing. *)
Lemma borrowBook_conflict env bookId user db bookData :
  fault env = None ->
  books db !! bookId = Some bookData ->
  BookDoc.status bookData = BORROWED ->
  borrowBook env bookId user db
  = (db, Rejected (JsError "Buku sedang dipinjam.")).
Proof.
  intros Hfault Hbook Hstatus.
  by rewrite borrowBook_cases, Hfault, Hbook, Hstatus.
Qed.

(** With a working backend, borrowing an [AVAILABLE] book resolves, and
    the book is [BORROWED] afterwards. *)
Lemma borrowBook_available env bookId user db bookData :
  fault env = None ->
  books db !! bookId = Some bookData ->
  BookDoc.status bookData = AVAILABLE ->
  exists db',
    borrowBook env bookId user db
    = (db', Resolved (mkBorrowBookResponse (autoId env)
                        "Buku berhasil dipinjam!")) /\
    books db' = <[bookId := BookDoc.merge
                              (BookDoc.mk_patch BORROWED (now env)) bookData]>
                  (books db) /\
    transactions db'
    = <[autoId env :=
          TransactionDoc.mk bookId (User.uid user) (now env) None TX_BORROWED
            (Some (BookDoc.title bookData)) (Some (User.name user))]>
        (transactions db).
Proof.
  intros Hfault Hbook Hstatus.
  rewrite borrowBook_cases, Hfault, Hbook, Hstatus.
  eexists; split; [reflexivity|]. split; reflexivity.
Qed.

(** A [borrowBook] that resolves leaves its book [BORROWED]. *)
Lemma borrowBook_resolved_borrowed env bookId user db db' response :
  borrowBook env bookId user db = (db', Resolved response) ->
  exists bookData,
    books db' !! bookId = Some bookData /\
    BookDoc.status bookData = BORROWED.
Proof.
  rewrite borrowBook_cases.
  destruct (fault env); [discriminate|].
  destruct (books db !! bookId) as [bookData|]; [|discriminate].
  destruct (BookDoc.status bookData); [|discriminate].
  intros [= <- _]. eexists. split; [apply lookup_insert_eq|reflexivity].
Qed.

(** C2. A [borrowBook] on a book whose status is [BORROWED] is rejected
    and leaves the store as it is; when the backend answers, the error is
    the one of the status check ("Buku sedang dipinjam.", a [Conflict] of
    the taxonomy).  Hence, for a book that is [AVAILABLE] and a backend
    that answers, of two [borrowBook] calls that the store runs one after
    the other, in either order, the first resolves and the second is
    rejected with that error and changes nothing.  Two calls in a row
    never both resolve, whatever the book and the backend. *)
Theorem borrow_twice_one_success
    env1 env2 bookId user1 user2 db bookData :
  books db !! bookId = Some bookData ->
  spec_failure_kind "Buku sedang dipinjam." = Some Conflict /\
  (BookDoc.status bookData = BORROWED ->
   (exists error, borrowBook env1 bookId user1 db = (db, Rejected error)) /\
   (fault env1 = None ->
    borrowBook env1 bookId user1 db
    = (db, Rejected (JsError "Buku sedang dipinjam.")))) /\
  (BookDoc.status bookData = AVAILABLE ->
   fault env1 = None ->
   fault env2 = None ->
   (exists db1 response,
      borrowBook env1 bookId user1 db = (db1, Resolved response) /\
      borrowBook env2 bookId user2 db1
      = (db1, Rejected (JsError "Buku sedang dipinjam."))) /\
   (exists db2 response,
      borrowBook env2 bookId user2 db = (db2, Resolved response) /\
      borrowBook env1 bookId user1 db2
      = (db2, Rejected (JsError "Buku sedang dipinjam.")))) /\
  (forall db1 response1 db2 response2,
     borrowBook env1 bookId user1 db = (db1, Resolved response1) ->
     borrowBook env2 bookId user2 db1 = (db2, Resolved response2) ->
     False).
Proof.
  intros Hbook.
  split; [reflexivity|]. split; [|split].
  - intros Hstatus. split.
    + rewrite borrowBook_cases, Hbook, Hstatus.
      destruct (fault env1); eexists; reflexivity.
    + intros Hfault. eapply borrowBook_conflict; eauto.
  - intros Hstatus Hfault1 Hfault2.
    assert (Hrace : forall enva envb usera userb,
               fault enva = None -> fault envb = None ->
               exists dba response,
                 borrowBook enva bookId usera db = (dba, Resolved response) /\
                 borrowBook envb bookId userb dba
                 = (dba, Rejected (JsError "Buku sedang dipinjam."))).
    { intros enva envb usera userb Ha Hb.
      destruct (borrowBook_available enva bookId usera db bookData Ha Hbook
                  Hstatus) as (dba & Hfirst & Hbooks & _).
      exists dba. eexists. split; [exact Hfirst|].
      eapply borrowBook_conflict; [exact Hb| |].
      - rewrite Hbooks. apply lookup_insert_eq.
      - reflexivity. }
    split; apply Hrace; assumption.
  - intros db1 response1 db2 response2 Hfirst Hsecond.
    apply borrowBook_resolved_borrowed in Hfirst
      as (lentBook & Hlent & Hstatus).
    rewrite borrowBook_cases, Hlent, Hstatus in Hsecond.
    destruct (fault env2); discriminate Hsecond.
Qed.

Lemma borrow_twice_one_success_witness :
  (borrowBook (online 5 "t2") "b1" budi lent
   = (lent, Rejected (JsError "Buku sedang dipinjam."))) /\
  (exists db1 response,
     borrowBook (online 5 "t1") "b1" ani shelf = (db1, Resolved response) /\
     borrowBook (online 6 "t2") "b1" budi db1
     = (db1, Rejected (JsError "Buku sedang dipinjam."))).
Proof.
  split.
  - apply (borrow_twice_one_success (online 5 "t2") (online 6 "t3") "b1"
             budi ani lent (novel BORROWED)); reflexivity.
  - apply (borrow_twice_one_success (online 5 "t1") (online 6 "t2") "b1"
             ani budi shelf (novel AVAILABLE)); reflexivity.
Defined.

(** C6. A [borrowBook] on an id that is no book's is rejected with
    "Buku tidak ditemukan." (a [NotFound] of the taxonomy) when the
    backend answers, and in every case leaves the store as it is: no book
    is modified and no loan entry is created. *)
Theorem borrow_missing_book env bookId user db :
  books db !! bookId = None ->
  spec_failure_kind "Buku tidak ditemukan." = Some NotFound /\
  (fault env = None ->
   borrowBook env bookId user db
   = (db, Rejected (JsError "Buku tidak ditemukan."))) /\
  fst (borrowBook env bookId user db) = db.
Proof.
  intros Hbook. rewrite borrowBook_cases, Hbook.
  split; [reflexivity|].
  destruct (fault env) as [error|]; split; try reflexivity; discriminate.
Qed.

Lemma borrow_missing_book_witness :
  borrowBook (online 5 "t1") "nonexistent-book" ani shelf
  = (shelf, Rejected (JsError "Buku tidak ditemukan.")).
Proof.
  apply (borrow_missing_book (online 5 "t1") "nonexistent-book" ani shelf);
    reflexivity.
Defined.

(** C5. For a book that exists and is [AVAILABLE], a [borrowBook] that
    the backend does not fail resolves with the id of a new loan entry,
    and its two writes are applied together: the book gets status
    [BORROWED] and the commit time as [updatedAt], its other fields
    kept; one loan entry is created under the generated id, with status
    [BORROWED], no [returnDate], the commit time as [borrowDate], the
    book's title and the borrower's name.  Every other book and every
    other loan entry is as before. *)
Theorem borrow_available_effect env bookId user db bookData :
  books db !! bookId = Some bookData ->
  BookDoc.status bookData = AVAILABLE ->
  fault env = None ->
  transactions db !! autoId env = None ->
  exists db' entry,
    borrowBook env bookId user db
    = (db', Resolved (mkBorrowBookResponse (autoId env)
                        "Buku berhasil dipinjam!")) /\
    books db' !! bookId
    = Some (BookDoc.mk (BookDoc.title bookData) (BookDoc.author bookData)
              (BookDoc.coverUrl bookData) BORROWED
              (BookDoc.description bookData) (BookDoc.isbn bookData)
              (BookDoc.createdAt bookData) (Some (now env))) /\
    (forall other, other <> bookId -> books db' !! other = books db !! other) /\
    entry = TransactionDoc.mk bookId (User.uid user) (now env) None
              TX_BORROWED (Some (BookDoc.title bookData))
              (Some (User.name user)) /\
    transactions db' !! autoId env = Some entry /\
    (forall other, other <> autoId env ->
                   transactions db' !! other = transactions db !! other) /\
    size (transactions db') = S (size (transactions db)) /\
    (forall env0 db0 error,
       borrowBook env0 bookId user db = (db0, Rejected error) -> db0 = db).
Proof.
  intros Hbook Hstatus Hfault Hfresh.
  destruct (borrowBook_available env bookId user db bookData Hfault Hbook
              Hstatus) as (db' & Hrun & Hbooks & Hloans).
  exists db'. eexists. split; [exact Hrun|].
  rewrite Hbooks, Hloans.
  split; [apply lookup_insert_eq|].
  split; [intros other Hother; by apply lookup_insert_ne|].
  split; [reflexivity|].
  split; [apply lookup_insert_eq|].
  split; [intros other Hother; by apply lookup_insert_ne|].
  split; [by apply map_size_insert_None|].
  intros env0 db0 error. apply borrowBook_rejected_unchanged.
Qed.

Lemma borrow_available_effect_witness :
  exists db' entry,
    borrowBook (online 5 "t1") "b1" ani shelf
    = (db', Resolved (mkBorrowBookResponse "t1" "Buku berhasil dipinjam!")) /\
    books db' !! "b1"
    = Some (BookDoc.mk "Laskar Pelangi" "Andrea Hirata" "" BORROWED None None
              (Some 1) (Some 5)) /\
    (forall other, other <> "b1" -> books db' !! other = books shelf !! other) /\
    entry = TransactionDoc.mk "b1" "u1" 5 None TX_BORROWED
              (Some "Laskar Pelangi") (Some "Ani") /\
    transactions db' !! "t1" = Some entry /\
    (forall other, other <> "t1" ->
                   transactions db' !! other = transactions shelf !! other) /\
    size (transactions db') = 1 /\
    (forall env0 db0 error,
       borrowBook env0 "b1" ani shelf = (db0, Rejected error) -> db0 = shelf).
Proof.
  apply (borrow_available_effect (online 5 "t1") "b1" ani shelf
           (novel AVAILABLE)); reflexivity.
Defined.

(** ** Returning *)

(** A rejected or failed [returnBook] writes nothing. *)
Lemma returnBook_rejected_unchanged env transactionId db db' error :
  returnBook env transactionId db = (db', Rejected error) -> db' = db.
Proof.
  rewrite returnBook_cases.
  repeat case_match; congruence.
Qed.

(** What one call of any helper does to the loan entries: they stay as
    they are, or a new one is set under the generated id, or one that is
    [BORROWED] is closed. *)
Lemma run_transactions env op db :
  transactions (run env op db) = transactions db \/
  (exists entry,
     transactions (run env op db) = <[autoId env := entry]> (transactions db)) \/
  (exists transactionId entry closing,
     transactions db !! transactionId = Some entry /\
     TransactionDoc.status entry = TX_BORROWED /\
     transactions (run env op db)
     = <[transactionId := TransactionDoc.merge closing entry]>
         (transactions db)).
Proof.
  destruct op as [bookData cover|bookId|bookId user|transactionId]; simpl.
  - destruct (addBook_store env db bookData cover) as [->|(d & _ & _ & ->)];
      by left.
  - rewrite deleteBook_cases. left. by destruct (fault env).
  - rewrite borrowBook_cases.
    destruct (fault env); [by left|].
    destruct (books db !! bookId) as [bookData|]; [|by left].
    destruct (BookDoc.status bookData); [|by left].
    right; left. by eexists.
  - rewrite returnBook_cases.
    destruct (fault env); [by left|].
    destruct (transactions db !! transactionId) as [entry|] eqn:Hloan;
      [|by left].
    destruct (TransactionDoc.status entry) eqn:Hstatus; [|by left].
    destruct (books db !! TransactionDoc.bookId entry); [|by left].
    right; right.
    by exists transactionId, entry,
      (TransactionDoc.mk_patch RETURNED (now env)).
Qed.

(** No helper touches a loan entry that is [RETURNED]. *)
Lemma step_keeps_returned allowed db db' transactionId entry :
  step allowed db db' ->
  transactions db !! transactionId = Some entry ->
  TransactionDoc.status entry = RETURNED ->
  transactions db' !! transactionId = Some entry.
Proof.
  intros (env & op & _ & (_ & Hfresh & _) & ->) Hloan Hstatus.
  destruct (run_transactions env op db)
    as [->|[(new & ->)|(other & old & closing & Hother & Hopen & ->)]].
  - exact Hloan.
  - rewrite lookup_insert_ne; [exact Hloan|]. congruence.
  - rewrite lookup_insert_ne; [exact Hloan|]. congruence.
Qed.

(** C3. For a loan entry whose status is [RETURNED], a [returnBook] on it
    is rejected with "Buku sudah dikembalikan sebelumnya." (a [Conflict]
    of the taxonomy) when the backend answers, and in every case leaves
    the whole store as it is.  The entry is terminal: after any sequence
    of calls of the helpers it is still there with all its fields as they
    were. *)
Theorem returned_is_terminal transactionId entry db :
  transactions db !! transactionId = Some entry ->
  TransactionDoc.status entry = RETURNED ->
  spec_failure_kind "Buku sudah dikembalikan sebelumnya." = Some Conflict /\
  (forall env,
     fault env = None ->
     returnBook env transactionId db
     = (db, Rejected (JsError "Buku sudah dikembalikan sebelumnya."))) /\
  (forall env, fst (returnBook env transactionId db) = db) /\
  (forall db',
     reachable any_op db db' ->
     transactions db' !! transactionId = Some entry).
Proof.
  intros Hloan Hstatus.
  split; [reflexivity|].
  split; [|split].
  - intros env Hfault. by rewrite returnBook_cases, Hfault, Hloan, Hstatus.
  - intros env. rewrite returnBook_cases, Hloan, Hstatus.
    by destruct (fault env).
  - intros db' Hreach. induction Hreach as [db|db mid db' Hstep _ IH].
    + exact Hloan.
    + apply IH. eapply step_keeps_returned; eauto.
Qed.

Lemma returned_is_terminal_witness :
  returnBook (online 9 "t9") "t1" closed
  = (closed, Rejected (JsError "Buku sudah dikembalikan sebelumnya.")).
Proof.
  apply (returned_is_terminal "t1" (loan "b1" "u1" RETURNED (Some 7)) closed);
    reflexivity.
Defined.

(** C7. For a loan entry that is [BORROWED] and whose book is gone, a
    [returnBook] on it is rejected with "Buku tidak ditemukan." (a
    [NotFound] of the taxonomy) when the backend answers, and in every
    case nothing is written: the entry is still [BORROWED], with the
    [returnDate] it had, and no other document has changed. *)
Theorem return_of_deleted_book env transactionId entry db :
  transactions db !! transactionId = Some entry ->
  TransactionDoc.status entry = TX_BORROWED ->
  books db !! TransactionDoc.bookId entry = None ->
  spec_failure_kind "Buku tidak ditemukan." = Some NotFound /\
  (fault env = None ->
   returnBook env transactionId db
   = (db, Rejected (JsError "Buku tidak ditemukan."))) /\
  fst (returnBook env transactionId db) = db /\
  transactions (fst (returnBook env transactionId db)) !! transactionId
  = Some entry.
Proof.
  intros Hloan Hstatus Hbook.
  rewrite returnBook_cases, Hloan, Hstatus, Hbook.
  split; [reflexivity|].
  destruct (fault env) as [error|]; simpl; repeat split; try done.
Qed.

Lemma return_of_deleted_book_witness :
  returnBook (online 9 "t9") "t1" orphaned
  = (orphaned, Rejected (JsError "Buku tidak ditemukan.")).
Proof.
  apply (return_of_deleted_book (online 9 "t9") "t1"
           (loan "b1" "u1" TX_BORROWED None) orphaned); reflexivity.
Defined.

(** With a working backend, returning a [BORROWED] loan entry of an
    existing book resolves and applies both writes. *)
Lemma returnBook_open env transactionId db entry bookData :
  fault env = None ->
  transactions db !! transactionId = Some entry ->
  TransactionDoc.status entry = TX_BORROWED ->
  books db !! TransactionDoc.bookId entry = Some bookData ->
  returnBook env transactionId db
  = ({| books :=
          <[TransactionDoc.bookId entry :=
              BookDoc.merge (BookDoc.mk_patch AVAILABLE (now env)) bookData]>
            (books db);
        transactions :=
          <[transactionId :=
              TransactionDoc.merge (TransactionDoc.mk_patch RETURNED (now env))
                entry]> (transactions db) |},
     Resolved (mkReturnBookResponse transactionId
                 "Buku berhasil dikembalikan!")).
Proof.
  intros Hfault Hloan Hstatus Hbook.
  by rewrite returnBook_cases, Hfault, Hloan, Hstatus, Hbook.
Qed.

(** A new entry of book [b] with status [st] is one more loan of [b]
    with that status. *)
Lemma loans_of_insert_new st b db i entry :
  transactions db !! i = None ->
  TransactionDoc.bookId entry = b ->
  TransactionDoc.status entry = st ->
  size (loans_of st b (set_transactions (insert i entry) db))
  = S (size (loans_of st b db)).
Proof.
  intros Hnew Hb Hst. unfold loans_of. simpl.
  rewrite map_filter_insert_True by done.
  apply map_size_insert_None.
  by rewrite map_lookup_filter_None; left.
Qed.

(** C4. For a book that is [AVAILABLE], with a backend that answers both
    calls and a generated id that is new: [borrowBook] resolves with a
    loan id, [returnBook] on that id resolves, the book is [AVAILABLE]
    again, and next to the loan entries that were there before, all
    unchanged, there is exactly one more, of this book, [RETURNED], with
    a [returnDate]. *)
Theorem borrow_then_return env1 env2 bookId user db bookData :
  books db !! bookId = Some bookData ->
  BookDoc.status bookData = AVAILABLE ->
  fault env1 = None ->
  fault env2 = None ->
  transactions db !! autoId env1 = None ->
  exists db1 response db2 entry,
    borrowBook env1 bookId user db = (db1, Resolved response) /\
    returnBook env2 (borrow_transactionId response) db1
    = (db2, Resolved (mkReturnBookResponse (borrow_transactionId response)
                        "Buku berhasil dikembalikan!")) /\
    BookDoc.status <$> books db2 !! bookId = Some AVAILABLE /\
    transactions db !! borrow_transactionId response = None /\
    transactions db2
    = <[borrow_transactionId response := entry]> (transactions db) /\
    TransactionDoc.bookId entry = bookId /\
    TransactionDoc.status entry = RETURNED /\
    TransactionDoc.returnDate entry = Some (now env2) /\
    size (loans_of RETURNED bookId db2)
    = S (size (loans_of RETURNED bookId db)) /\
    size (loans_of TX_BORROWED bookId db2)
    = size (loans_of TX_BORROWED bookId db).
Proof.
  intros Hbook Hstatus Hfault1 Hfault2 Hnew.
  destruct (borrowBook_available env1 bookId user db bookData Hfault1 Hbook
              Hstatus) as (db1 & Hborrow & Hbooks1 & Hloans1).
  set (opened := TransactionDoc.mk bookId (User.uid user) (now env1) None
                   TX_BORROWED (Some (BookDoc.title bookData))
                   (Some (User.name user))) in *.
  set (lentBook := BookDoc.merge (BookDoc.mk_patch BORROWED (now env1))
                     bookData) in *.
  pose proof (returnBook_open env2 (autoId env1) db1 opened lentBook Hfault2)
    as Hreturn.
  rewrite Hbooks1, Hloans1, !lookup_insert_eq in Hreturn.
  specialize (Hreturn eq_refl eq_refl eq_refl).
  rewrite !insert_insert_eq in Hreturn.
  set (closedEntry := TransactionDoc.merge
                        (TransactionDoc.mk_patch RETURNED (now env2)) opened)
    in *.
  eexists db1, _, _, closedEntry.
  split; [exact Hborrow|]. simpl.
  split; [exact Hreturn|]. simpl.
  split; [by rewrite lookup_insert_eq|].
  split; [exact Hnew|].
  split; [reflexivity|].
  do 3 (split; [reflexivity|]).
  split.
  - apply (loans_of_insert_new RETURNED bookId db (autoId env1) closedEntry);
      done.
  - unfold loans_of. simpl.
    rewrite map_filter_insert_False by (simpl; intros [_ ?]; done).
    by rewrite delete_id.
Qed.

Lemma borrow_then_return_witness :
  exists db1 response db2 entry,
    borrowBook (online 5 "t1") "b1" ani shelf = (db1, Resolved response) /\
    returnBook (online 8 "t7") (borrow_transactionId response) db1
    = (db2, Resolved (mkReturnBookResponse (borrow_transactionId response)
                        "Buku berhasil dikembalikan!")) /\
    BookDoc.status <$> books db2 !! "b1" = Some AVAILABLE /\
    transactions shelf !! borrow_transactionId response = None /\
    transactions db2
    = <[borrow_transactionId response := entry]> (transactions shelf) /\
    TransactionDoc.bookId entry = "b1" /\
    TransactionDoc.status entry = RETURNED /\
    TransactionDoc.returnDate entry = Some 8 /\
    size (loans_of RETURNED "b1" db2) = S (size (loans_of RETURNED "b1" shelf)) /\
    size (loans_of TX_BORROWED "b1" db2)
    = size (loans_of TX_BORROWED "b1" shelf).
Proof.
  apply (borrow_then_return (online 5 "t1") (online 8 "t7") "b1" ani shelf
           (novel AVAILABLE)); reflexivity.
Defined.

(** ** Deleting a book *)

(** C9. [deleteBook] does not look at the status of the book.  For every
    book that exists, whatever its status, when the backend answers the
    call resolves, the book document is gone, and the loan entries are
    all as before: an entry of that book that is [BORROWED] stays
    [BORROWED] and now refers to a book that does not exist. *)
Theorem delete_ignores_loans env bookId db bookData :
  books db !! bookId = Some bookData ->
  fault env = None ->
  exists db',
    deleteBook env bookId db = (db', Resolved tt) /\
    books db' = delete bookId (books db) /\
    books db' !! bookId = None /\
    transactions db' = transactions db /\
    (forall transactionId entry,
       transactions db !! transactionId = Some entry ->
       TransactionDoc.bookId entry = bookId ->
       TransactionDoc.status entry = TX_BORROWED ->
       transactions db' !! transactionId = Some entry /\
       books db' !! TransactionDoc.bookId entry = None).
Proof.
  intros Hbook Hfault.
  rewrite deleteBook_cases, Hfault.
  eexists. split; [reflexivity|]. simpl.
  split; [reflexivity|].
  split; [apply lookup_delete_eq|].
  split; [reflexivity|].
  intros transactionId entry Hloan -> _.
  split; [exact Hloan|apply lookup_delete_eq].
Qed.

Lemma delete_ignores_loans_witness :
  exists db',
    deleteBook (online 9 "t9") "b1" lent = (db', Resolved tt) /\
    books db' = delete "b1" (books lent) /\
    books db' !! "b1" = None /\
    transactions db' = transactions lent /\
    (forall transactionId entry,
       transactions lent !! transactionId = Some entry ->
       TransactionDoc.bookId entry = "b1" ->
       TransactionDoc.status entry = TX_BORROWED ->
       transactions db' !! transactionId = Some entry /\
       books db' !! TransactionDoc.bookId entry = None).
Proof.
  apply (delete_ignores_loans (online 9 "t9") "b1" lent (novel BORROWED));
    reflexivity.
Defined.

(** ** Does the user hold the book? *)

(** A query matches a document when each of its clauses does. *)
Lemma matches_held userId bookId entry :
  matches [where_userId userId; where_bookId bookId; where_status TX_BORROWED]
    entry = true <->
  TransactionDoc.userId entry = userId /\
  TransactionDoc.bookId entry = bookId /\
  TransactionDoc.status entry = TX_BORROWED.
Proof.
  unfold matches, where_userId, where_bookId, where_status. simpl.
  rewrite !andb_true_iff, !bool_decide_eq_true. tauto.
Qed.

(** The snapshot of a query is not empty exactly when some document of
    the collection matches. *)
Lemma snapshot_not_empty (q : Query) (m : gmap string TransactionDoc.t) :
  negb (empty_snapshot
          (List.filter (fun kd => matches q (snd kd)) (map_to_list m))) = true
  <-> exists i d, m !! i = Some d /\ matches q d = true.
Proof.
  split.
  - destruct (List.filter _ _) as [|[i d] rest] eqn:Hdocs; [discriminate|].
    intros _.
    assert (Hin : In (i, d) (List.filter (fun kd => matches q (snd kd))
                               (map_to_list m)))
      by (rewrite Hdocs; left; reflexivity).
    apply filter_In in Hin as [Hin Hmatch].
    exists i, d. split; [|exact Hmatch].
    by apply elem_of_map_to_list, list_elem_of_In.
  - intros (i & d & Hlookup & Hmatch).
    assert (Hin : In (i, d) (List.filter (fun kd => matches q (snd kd))
                               (map_to_list m))).
    { apply filter_In. split; [|exact Hmatch].
      by apply list_elem_of_In, elem_of_map_to_list. }
    by destruct (List.filter _ _).
Qed.

(** C10. [hasUserBorrowedBook] always resolves and writes nothing.  When
    the query is answered, it resolves with [true] exactly when some loan
    entry has that user, that book and status [BORROWED].  When the query
    fails, it resolves with [false], whatever the loan entries are: the
    caller gets the same answer as for a user who does not hold the
    book. *)
Theorem has_borrowed_answer env userId bookId db :
  exists answer,
    hasUserBorrowedBook env userId bookId db = (db, Resolved answer) /\
    (fault env = None ->
     (answer = true <->
      exists transactionId entry,
        transactions db !! transactionId = Some entry /\
        TransactionDoc.userId entry = userId /\
        TransactionDoc.bookId entry = bookId /\
        TransactionDoc.status entry = TX_BORROWED)) /\
    (forall error, fault env = Some error -> answer = false).
Proof.
  unfold hasUserBorrowedBook, getDocs, try_catch, async_bind, async_ret.
  destruct (fault env) as [error|].
  - exists false. split; [reflexivity|]. split; [discriminate|reflexivity].
  - eexists. split; [reflexivity|]. split; [|discriminate].
    intros _. rewrite snapshot_not_empty.
    by setoid_rewrite matches_held.
Qed.

Lemma has_borrowed_answer_witness :
  hasUserBorrowedBook (online 9 "t9") "u1" "b1" lent = (lent, Resolved true) /\
  hasUserBorrowedBook (offline 9 "t9") "u1" "b1" lent = (lent, Resolved false).
Proof.
  split.
  - destruct (has_borrowed_answer (online 9 "t9") "u1" "b1" lent)
      as (answer & -> & Hanswer & _).
    f_equal. f_equal. apply Hanswer; [reflexivity|].
    exists "t1", (loan "b1" "u1" TX_BORROWED None). by vm_compute.
  - destruct (has_borrowed_answer (offline 9 "t9") "u1" "b1" lent)
      as (answer & -> & _ & Hfailed).
    f_equal. f_equal. eapply Hfailed. reflexivity.
Defined.

(** ** Failures *)




(** ** The invariant of books and loans *)

Section Counting.
Variable b : string.
Variables db db' : Firestore.

(** A new [BORROWED] entry counts for its book and for no other. *)
Lemma outstanding_opened i entry :
  transactions db !! i = None ->
  transactions db' = <[i := entry]> (transactions db) ->
  TransactionDoc.status entry = TX_BORROWED ->
  outstanding b db'
  = if decide (TransactionDoc.bookId entry = b)
    then S (outstanding b db) else outstanding b db.
Proof.
  intros Hnew Hloans Hstatus. unfold outstanding, loans_of.
  rewrite Hloans. case_decide as Hbook.
  - rewrite map_filter_insert_True by done.
    apply map_size_insert_None.
    rewrite map_lookup_filter_None. by left.
  - rewrite map_filter_insert_False by (simpl; tauto).
    by rewrite delete_id.
Qed.

(** Closing a [BORROWED] entry takes one off the count of its book and
    leaves the other counts. *)
Lemma outstanding_closed i entry now :
  transactions db !! i = Some entry ->
  TransactionDoc.status entry = TX_BORROWED ->
  transactions db'
  = <[i := TransactionDoc.merge (TransactionDoc.mk_patch RETURNED now)
              entry]> (transactions db) ->
  (if decide (TransactionDoc.bookId entry = b)
   then S (outstanding b db') else outstanding b db')
  = outstanding b db.
Proof.
  intros Hloan Hstatus Hloans. unfold outstanding, loans_of.
  rewrite Hloans.
  rewrite map_filter_insert_False by (simpl; intros [_ ?]; done).
  rewrite map_filter_delete. case_decide as Hbook.
  - rewrite map_size_delete_Some.
    + apply Nat.succ_pred, map_size_ne_0_lookup_2 with i.
      exists entry. by apply map_lookup_filter_Some.
    + exists entry. by apply map_lookup_filter_Some.
  - rewrite delete_id; [done|].
    apply map_lookup_filter_None. right. intros d Hd [Hb _].
    simpl in Hb. congruence.
Qed.
End Counting.

(** A book to which no loan entry refers has no outstanding loan. *)
Lemma outstanding_unreferenced b db :
  map_Forall (fun _ d => TransactionDoc.bookId d <> b) (transactions db) ->
  outstanding b db = 0.
Proof.
  intros Hnone. unfold outstanding, loans_of.
  apply map_size_empty_iff, map_empty_filter.
  intros i d Hd [Hb _]. exact (Hnone i d Hd Hb).
Qed.

(** The invariant with the [AVAILABLE] case spelled out gives the
    invariant in the words of the specification. *)
Lemma loan_invariant_spec db : loan_invariant db -> spec_invariant db.
Proof.
  intros Hinv bookId bookData Hbook.
  rewrite (Hinv bookId bookData Hbook).
  by destruct (BookDoc.status bookData).
Qed.

Lemma addBook_preserves env bookData cover db :
  fresh_id (autoId env) db ->
  loan_invariant db ->
  loan_invariant (fst (addBook env bookData cover db)).
Proof.
  intros (_ & _ & Hunref) Hinv.
  destruct (addBook_store env db bookData cover)
    as [->|(d & Hstatus & Hnew & ->)]; [exact Hinv|].
  apply map_Forall_insert; [exact Hnew|]. split.
  - rewrite Hstatus. by apply outstanding_unreferenced.
  - exact Hinv.
Qed.

Lemma borrowBook_preserves env bookId user db :
  fresh_id (autoId env) db ->
  loan_invariant db ->
  loan_invariant (fst (borrowBook env bookId user db)).
Proof.
  intros (_ & Hnew & _) Hinv. rewrite borrowBook_cases.
  destruct (fault env); [exact Hinv|].
  destruct (books db !! bookId) as [bookData|] eqn:Hbook; [|exact Hinv].
  destruct (BookDoc.status bookData) eqn:Hstatus; [|exact Hinv].
  intros other d. simpl. intros Hother.
  erewrite (outstanding_opened other db _ (autoId env));
    [|exact Hnew|reflexivity|reflexivity].
  simpl. destruct (decide (bookId = other)) as [->|Hne].
  - rewrite lookup_insert_eq in Hother. injection Hother as <-.
    rewrite (Hinv other bookData Hbook), Hstatus. reflexivity.
  - rewrite lookup_insert_ne in Hother by done. by apply Hinv.
Qed.

Lemma returnBook_preserves env transactionId db :
  loan_invariant db ->
  loan_invariant (fst (returnBook env transactionId db)).
Proof.
  intros Hinv. rewrite returnBook_cases.
  destruct (fault env); [exact Hinv|].
  destruct (transactions db !! transactionId) as [entry|] eqn:Hloan;
    [|exact Hinv].
  destruct (TransactionDoc.status entry) eqn:Hstatus; [|exact Hinv].
  destruct (books db !! TransactionDoc.bookId entry) as [bookData|] eqn:Hbook;
    [|exact Hinv].
  intros other d. simpl. intros Hother.
  pose proof (outstanding_closed other db
                {| books := <[TransactionDoc.bookId entry :=
                                BookDoc.merge
                                  (BookDoc.mk_patch AVAILABLE (now env))
                                  bookData]> (books db);
                   transactions :=
                     <[transactionId :=
                         TransactionDoc.merge
                           (TransactionDoc.mk_patch RETURNED (now env)) entry]>
                       (transactions db) |}
                transactionId entry (now env) Hloan Hstatus eq_refl) as Hcount.
  destruct (decide (TransactionDoc.bookId entry = other)) as [Heq|Hne].
  - rewrite Heq, lookup_insert_eq in Hother. injection Hother as <-.
    rewrite Heq in Hbook. rewrite (Hinv other bookData Hbook) in Hcount.
    destruct (BookDoc.status bookData); simpl in *; congruence.
  - rewrite lookup_insert_ne in Hother by done.
    rewrite Hcount. by apply Hinv.
Qed.

Lemma step_preserves db db' :
  step add_borrow_return db db' -> loan_invariant db -> loan_invariant db'.
Proof.
  intros (env & op & Hallowed & Hfresh & ->) Hinv.
  destruct op as [bookData cover|bookId|bookId user|transactionId]; simpl.
  - by apply addBook_preserves.
  - discriminate Hallowed.
  - by apply borrowBook_preserves.
  - by apply returnBook_preserves.
Qed.

(** C1, as the code has it.  Take the invariant with the [AVAILABLE]
    case spelled out: every book that is [BORROWED] has exactly one
    [BORROWED] loan entry, and every book that is [AVAILABLE] has none.
    From a state in which it holds, every state that calls of [addBook],
    [borrowBook] and [returnBook] reach, with generated ids that are new,
    satisfies it again, and with it the invariant of the specification. *)
Theorem loan_invariant_reachable db db' :
  loan_invariant db ->
  reachable add_borrow_return db db' ->
  loan_invariant db' /\ spec_invariant db'.
Proof.
  intros Hinv Hreach.
  assert (Hinv' : loan_invariant db').
  { induction Hreach as [db|db mid db' Hstep _ IH]; [exact Hinv|].
    apply IH. by apply (step_preserves db mid). }
  split; [exact Hinv'|by apply loan_invariant_spec].
Qed.

(** Facts about the sample stores, by evaluation. *)
Lemma fresh_id_decide i db :
  bool_decide (books db !! i = None) = true ->
  bool_decide (transactions db !! i = None) = true ->
  forallb (fun kd => negb (String.eqb (TransactionDoc.bookId (snd kd)) i))
    (map_to_list (transactions db)) = true ->
  fresh_id i db.
Proof.
  intros Hbook Hloan Hrefs.
  split; [by apply bool_decide_eq_true in Hbook|].
  split; [by apply bool_decide_eq_true in Hloan|].
  intros t d Hd. rewrite forallb_forall in Hrefs.
  apply elem_of_map_to_list, list_elem_of_In, Hrefs in Hd. simpl in Hd.
  apply negb_true_iff, String.eqb_neq in Hd. exact Hd.
Qed.

Lemma loan_invariant_shelf : loan_invariant shelf.
Proof.
  intros bookId bookData Hbook. unfold shelf in Hbook. simpl in Hbook.
  apply lookup_singleton_Some in Hbook as [<- <-]. reflexivity.
Qed.

Lemma spec_invariant_doubled : spec_invariant doubled.
Proof.
  intros bookId bookData Hbook. unfold doubled in Hbook. simpl in Hbook.
  apply lookup_singleton_Some in Hbook as [<- <-].
  assert (Hcount : outstanding "b1" doubled = 2) by (vm_compute; reflexivity).
  rewrite Hcount. split; discriminate.
Qed.

Lemma loan_invariant_reachable_witness :
  loan_invariant (run (online 5 "t1") (BorrowBook "b1" ani) shelf) /\
  spec_invariant (run (online 5 "t1") (BorrowBook "b1" ani) shelf).
Proof.
  apply (loan_invariant_reachable shelf).
  - exact loan_invariant_shelf.
  - apply rtc_once. exists (online 5 "t1"), (BorrowBook "b1" ani).
    split; [reflexivity|]. split; [|reflexivity].
    apply fresh_id_decide; reflexivity.
Defined.

(** C1, as the claim has it, fails.  In [doubled] the book "b1" is
    [AVAILABLE] and two loan entries of it are [BORROWED]: not exactly
    one, so the invariant of the specification holds.  [borrowBook] on
    "b1" resolves and leaves the book [BORROWED] with three [BORROWED]
    entries; [returnBook] on "t1" resolves and leaves the book
    [AVAILABLE] with exactly one.  Either way the invariant is lost. *)
Lemma spec_invariant_not_preserved :
  spec_invariant doubled /\
  step add_borrow_return doubled
    (run (online 5 "t3") (BorrowBook "b1" ani) doubled) /\
  ~ spec_invariant (run (online 5 "t3") (BorrowBook "b1" ani) doubled) /\
  step add_borrow_return doubled
    (run (online 5 "t3") (ReturnBook "t1") doubled) /\
  ~ spec_invariant (run (online 5 "t3") (ReturnBook "t1") doubled).
Proof.
  assert (Hfresh : fresh_id "t3" doubled)
    by (apply fresh_id_decide; reflexivity).
  split; [exact spec_invariant_doubled|].
  split; [by exists (online 5 "t3"), (BorrowBook "b1" ani)|].
  split.
  { intros Hinv.
    destruct (Hinv "b1" (BookDoc.merge (BookDoc.mk_patch BORROWED 5)
                           (novel AVAILABLE)) eq_refl) as [Hone _].
    specialize (Hone eq_refl). vm_compute in Hone. discriminate Hone. }
  split; [by exists (online 5 "t3"), (ReturnBook "t1")|].
  intros Hinv.
  destruct (Hinv "b1" (BookDoc.merge (BookDoc.mk_patch AVAILABLE 5)
                         (novel AVAILABLE)) eq_refl) as [_ Hone].
  assert (Hcount : outstanding "b1"
                     (run (online 5 "t3") (ReturnBook "t1") doubled) = 1)
    by (vm_compute; reflexivity).
  specialize (Hone Hcount). discriminate Hone.
Qed.

(** * Further properties of the helpers and the screens *)

(** ** Adding, reading and deleting books *)

(** [addBook] along its paths: the backend fails, the picked cover
    cannot be read, the generated id is taken, or the book is added.  The
    cover URL of a new book is the download URL of the upload when a
    cover was picked, the empty string otherwise. *)
Lemma addBook_cases env bookData coverImageUri db :
  addBook env bookData coverImageUri db =
  match fault env with
  | Some _ => (db, Rejected (JsError "Gagal menambah buku. Silakan coba lagi."))
  | None =>
      if cover_readable env coverImageUri
      then
        match books db !! autoId env with
        | Some _ =>
            (db, Rejected (JsError "Gagal menambah buku. Silakan coba lagi."))
        | None =>
            (set_books
               (insert (autoId env)
                  {| BookDoc.title := in_title bookData;
                     BookDoc.author := in_author bookData;
                     BookDoc.coverUrl :=
                       match coverImageUri with
                       | None | Some EmptyString => ""
                       | Some _ => downloadURL env
                       end;
                     BookDoc.status := AVAILABLE;
                     BookDoc.description :=
                       optional_field (in_description bookData);
                     BookDoc.isbn := optional_field (in_isbn bookData);
                     BookDoc.createdAt := Some (now env);
                     BookDoc.updatedAt := Some (now env) |}) db,
             Resolved (autoId env))
        end
      else (db, Rejected (JsError "Gagal menambah buku. Silakan coba lagi."))
  end.
Proof.
  unfold addBook, uploadImage, uriToBlob, uploadBytes, addDoc, cover_readable,
    try_catch, async_bind, async_ret, async_throw.
  destruct (fault env) as [error|] eqn:Hfault.
  - destruct coverImageUri as [[|c uri]|]; cbn;
      try destruct (unreadable env (String c uri)); cbn; rewrite ?Hfault;
      reflexivity.
  - destruct (books db !! autoId env) eqn:Hold;
      destruct coverImageUri as [[|c uri]|]; cbn;
      try destruct (unreadable env (String c uri)); cbn;
      rewrite ?Hfault, ?Hold; reflexivity.
Qed.

Lemma getBookById_cases env bookId db :
  getBookById env bookId db =
  match fault env with
  | Some _ =>
      (db, Rejected (JsError "Gagal mengambil detail buku. Silakan coba lagi."))
  | None =>
      (db, Resolved (match books db !! bookId with
                     | Some d => Some {| id := bookId; data := d |}
                     | None => None
                     end))
  end.
Proof.
  unfold getBookById, getDoc, try_catch, async_bind, async_ret, async_throw.
  destruct (fault env); [reflexivity|].
  by destruct (books db !! bookId).
Qed.

(** X1. A book that [addBook] has added is read back by [getBookById]
    under the id [addBook] resolved with.  With a backend that answers
    and a generated id that is not taken, [addBook] resolves when the
    cover picked in the form, if any, can be read: the book has the title
    and the author of the form, status [AVAILABLE], both timestamps at
    the commit time, an optional field only when the form had a non-empty
    value for it, and as cover URL the download URL of the upload, or the
    empty string when no cover was picked; the other books and all loan
    entries are as before.  When the picked cover cannot be read,
    [addBook] rejects with its one message and writes nothing. *)
Theorem add_then_get env env' bookData coverImageUri db :
  fault env = None ->
  fault env' = None ->
  books db !! autoId env = None ->
  (cover_readable env coverImageUri = true ->
   exists db' d,
     addBook env bookData coverImageUri db = (db', Resolved (autoId env)) /\
     getBookById env' (autoId env) db'
     = (db', Resolved (Some {| id := autoId env; data := d |})) /\
     BookDoc.title d = in_title bookData /\
     BookDoc.author d = in_author bookData /\
     BookDoc.status d = AVAILABLE /\
     BookDoc.createdAt d = Some (now env) /\
     BookDoc.updatedAt d = Some (now env) /\
     BookDoc.coverUrl d
     = match coverImageUri with
       | None | Some EmptyString => ""
       | Some _ => downloadURL env
       end /\
     (forall text,
        BookDoc.description d = Some text <->
        in_description bookData = Some text /\ text <> "") /\
     (forall text,
        BookDoc.isbn d = Some text <->
        in_isbn bookData = Some text /\ text <> "") /\
     (forall other, other <> autoId env ->
                    books db' !! other = books db !! other) /\
     transactions db' = transactions db) /\
  (cover_readable env coverImageUri = false ->
   addBook env bookData coverImageUri db
   = (db, Rejected (JsError "Gagal menambah buku. Silakan coba lagi."))).
Proof.
  intros Hfault Hfault' Hnew.
  rewrite addBook_cases, Hfault, Hnew.
  split; intros ->; [|reflexivity].
  eexists _, _. split; [reflexivity|].
  rewrite getBookById_cases, Hfault'. simpl. rewrite lookup_insert_eq.
  split; [reflexivity|]. simpl.
  do 6 (split; [reflexivity|]).
  assert (Hkept : forall v text,
             optional_field v = Some text <-> v = Some text /\ text <> "").
  { intros [[|c v]|] text; simpl; intuition congruence. }
  split; [apply Hkept|]. split; [apply Hkept|].
  split; [|reflexivity].
  intros other Hother. by apply lookup_insert_ne.
Qed.

Lemma add_then_get_witness :
  (exists db' d,
     addBook (lost_cover 5 "b2") novel_input (Some "file:///cover.jpg") shelf
     = (db', Resolved "b2") /\
     getBookById (online 6 "t9") "b2" db'
     = (db', Resolved (Some {| id := "b2"; data := d |})) /\
     BookDoc.title d = "Bumi Manusia" /\
     BookDoc.author d = "Pramoedya Ananta Toer" /\
     BookDoc.status d = AVAILABLE /\
     BookDoc.createdAt d = Some 5 /\
     BookDoc.updatedAt d = Some 5 /\
     BookDoc.coverUrl d = "https://storage.example/cover.jpg" /\
     (forall text,
        BookDoc.description d = Some text <->
        Some "" = Some text /\ text <> "") /\
     (forall text,
        BookDoc.isbn d = Some text <-> None = Some text /\ text <> "") /\
     (forall other, other <> "b2" ->
                    books db' !! other = books shelf !! other) /\
     transactions db' = transactions shelf) /\
  addBook (lost_cover 5 "b2") novel_input (Some "file:///gone.jpg") shelf
  = (shelf, Rejected (JsError "Gagal menambah buku. Silakan coba lagi.")).
Proof.
  split.
  - apply (add_then_get (lost_cover 5 "b2") (online 6 "t9") novel_input
             (Some "file:///cover.jpg") shelf); reflexivity.
  - apply (add_then_get (lost_cover 5 "b2") (online 6 "t9") novel_input
             (Some "file:///gone.jpg") shelf); reflexivity.
Defined.

(** X2. [addBook] never replaces or removes a book that is there and
    never touches a loan entry; when it fails, also when the generated id
    is taken, it rejects with its one message, whatever the cause, and
    writes nothing. *)
Theorem add_keeps_the_rest env bookData coverImageUri db :
  (forall i d,
     books db !! i = Some d ->
     books (fst (addBook env bookData coverImageUri db)) !! i = Some d) /\
  transactions (fst (addBook env bookData coverImageUri db))
  = transactions db /\
  (forall db' error,
     addBook env bookData coverImageUri db = (db', Rejected error) ->
     db' = db /\ error = JsError "Gagal menambah buku. Silakan coba lagi.") /\
  (is_Some (books db !! autoId env) ->
   addBook env bookData coverImageUri db
   = (db, Rejected (JsError "Gagal menambah buku. Silakan coba lagi."))).
Proof.
  rewrite addBook_cases.
  destruct (fault env) as [error|].
  { repeat split; try done; naive_solver. }
  destruct (cover_readable env coverImageUri).
  2: { repeat split; try done; naive_solver. }
  destruct (books db !! autoId env) as [old|] eqn:Hold.
  { repeat split; try done; naive_solver. }
  split; [|split; [reflexivity|split]].
  - intros i d Hbook. simpl. rewrite lookup_insert_ne; [done|congruence].
  - discriminate.
  - by intros [? ?].
Qed.

(** X3. After [deleteBook] has resolved, [getBookById] resolves with
    [null] for that id, and every other book and every loan entry is as
    before; deleting an id that is no book's resolves too and leaves the
    store as it is.  When the backend fails, [deleteBook] rejects with
    its one message and writes nothing. *)
Theorem delete_then_get env env' bookId db :
  fault env' = None ->
  (fault env = None ->
   exists db',
     deleteBook env bookId db = (db', Resolved tt) /\
     getBookById env' bookId db' = (db', Resolved None) /\
     (forall other, other <> bookId ->
                    books db' !! other = books db !! other) /\
     transactions db' = transactions db /\
     (books db !! bookId = None -> db' = db)) /\
  (forall cause,
     fault env = Some cause ->
     deleteBook env bookId db
     = (db, Rejected (JsError "Gagal hapus buku. Silakan coba lagi."))).
Proof.
  intros Hfault'. rewrite deleteBook_cases. split.
  - intros ->. eexists. split; [reflexivity|].
    rewrite getBookById_cases, Hfault'. simpl. rewrite lookup_delete_eq.
    split; [reflexivity|].
    split; [intros other Hother; by apply lookup_delete_ne|].
    split; [reflexivity|].
    intros Hmissing. destruct db as [bs ts]. unfold set_books. simpl in *.
    by rewrite delete_id.
  - by intros cause ->.
Qed.

Lemma delete_then_get_witness :
  exists db',
    deleteBook (online 5 "t9") "b1" lent = (db', Resolved tt) /\
    getBookById (online 6 "t9") "b1" db' = (db', Resolved None) /\
    (forall other, other <> "b1" -> books db' !! other = books lent !! other) /\
    transactions db' = transactions lent /\
    (books lent !! "b1" = None -> db' = lent).
Proof.
  apply (delete_then_get (online 5 "t9") (online 6 "t9") "b1" lent);
    reflexivity.
Defined.

Lemma add_keeps_the_rest_witness :
  addBook (online 5 "b1") novel_input None shelf
  = (shelf, Rejected (JsError "Gagal menambah buku. Silakan coba lagi.")).
Proof.
  apply (add_keeps_the_rest (online 5 "b1") novel_input None shelf).
  by exists (novel AVAILABLE).
Defined.

(** ** Returning, continued *)

(** X4. A [returnBook] on a loan entry that is [BORROWED] and whose book
    exists resolves when the backend answers, whatever the status of the
    book is: the book gets status [AVAILABLE] and the commit time as
    [updatedAt], the entry gets status [RETURNED] and the commit time as
    [returnDate], and all their other fields, every other book and every
    other loan entry are as before.  No loan entry is added or removed. *)
Theorem return_effect env transactionId db entry bookData :
  transactions db !! transactionId = Some entry ->
  TransactionDoc.status entry = TX_BORROWED ->
  books db !! TransactionDoc.bookId entry = Some bookData ->
  fault env = None ->
  exists db',
    returnBook env transactionId db
    = (db', Resolved (mkReturnBookResponse transactionId
                        "Buku berhasil dikembalikan!")) /\
    books db' !! TransactionDoc.bookId entry
    = Some (BookDoc.mk (BookDoc.title bookData) (BookDoc.author bookData)
              (BookDoc.coverUrl bookData) AVAILABLE
              (BookDoc.description bookData) (BookDoc.isbn bookData)
              (BookDoc.createdAt bookData) (Some (now env))) /\
    (forall other, other <> TransactionDoc.bookId entry ->
                   books db' !! other = books db !! other) /\
    transactions db' !! transactionId
    = Some (TransactionDoc.mk (TransactionDoc.bookId entry)
              (TransactionDoc.userId entry) (TransactionDoc.borrowDate entry)
              (Some (now env)) RETURNED (TransactionDoc.bookTitle entry)
              (TransactionDoc.userName entry)) /\
    (forall other, other <> transactionId ->
                   transactions db' !! other = transactions db !! other) /\
    dom (transactions db') = dom (transactions db).
Proof.
  intros Hloan Hstatus Hbook Hfault.
  rewrite (returnBook_open env transactionId db entry bookData) by done.
  eexists. split; [reflexivity|]. simpl.
  split; [apply lookup_insert_eq|].
  split; [intros other Hother; by apply lookup_insert_ne|].
  split; [apply lookup_insert_eq|].
  split; [intros other Hother; by apply lookup_insert_ne|].
  rewrite dom_insert_L.
  apply subseteq_union_1_L, singleton_subseteq_l, elem_of_dom. eauto.
Qed.

Lemma return_effect_witness :
  exists db',
    returnBook (online 8 "t9") "t1" lent
    = (db', Resolved (mkReturnBookResponse "t1" "Buku berhasil dikembalikan!")) /\
    books db' !! "b1"
    = Some (BookDoc.mk "Laskar Pelangi" "Andrea Hirata" "" AVAILABLE None None
              (Some 1) (Some 8)) /\
    (forall other, other <> "b1" -> books db' !! other = books lent !! other) /\
    transactions db' !! "t1"
    = Some (TransactionDoc.mk "b1" "u1" 2 (Some 8) RETURNED
              (Some "Laskar Pelangi") (Some "Ani")) /\
    (forall other, other <> "t1" ->
                   transactions db' !! other = transactions lent !! other) /\
    dom (transactions db') = dom (transactions lent).
Proof.
  apply (return_effect (online 8 "t9") "t1" lent
           (loan "b1" "u1" TX_BORROWED None) (novel BORROWED)); reflexivity.
Defined.

(** X5. A [returnBook] on an id that is no loan entry's is rejected with
    "Transaksi tidak ditemukan." when the backend answers, and in every
    case writes nothing. *)
Theorem return_missing_transaction env transactionId db :
  transactions db !! transactionId = None ->
  (fault env = None ->
   returnBook env transactionId db
   = (db, Rejected (JsError "Transaksi tidak ditemukan."))) /\
  fst (returnBook env transactionId db) = db.
Proof.
  intros Hloan. rewrite returnBook_cases, Hloan.
  destruct (fault env); split; try reflexivity; discriminate.
Qed.

Lemma return_missing_transaction_witness :
  returnBook (online 8 "t9") "t7" lent
  = (lent, Rejected (JsError "Transaksi tidak ditemukan.")).
Proof.
  apply (return_missing_transaction (online 8 "t9") "t7" lent); reflexivity.
Defined.

(** ** Lists of loan entries *)

Global Instance newer_loan_total : Total newer_loan.
Proof. intros x y. unfold newer_loan. lia. Qed.

Global Instance newer_loan_transitive : Transitive newer_loan.
Proof. intros x y z. unfold newer_loan. lia. Qed.

(** Taking elements out of a list keeps its keys apart. *)
Lemma NoDup_key_filter {A K} (key : A -> K) (f : A -> bool) (l : list A) :
  NoDup (key <$> l) -> NoDup (key <$> List.filter f l).
Proof.
  induction l as [|x l IH]; simpl; [done|].
  rewrite NoDup_cons. intros [Hx Hl].
  destruct (f x); simpl; [|auto].
  apply NoDup_cons. split; [|auto].
  intros (y & Hkey & Hin)%list_elem_of_fmap. apply Hx.
  apply list_elem_of_In, filter_In in Hin as [Hin _].
  apply list_elem_of_fmap. exists y. split; [done|by apply list_elem_of_In].
Qed.

Section OrderedQuery.
Variable q : Query.
Variable m : gmap string TransactionDoc.t.

Lemma answer_elem_of t :
  t ∈ query_answer q m <->
  m !! Transaction.id t = Some (Transaction.data t) /\
  matches q (Transaction.data t) = true.
Proof.
  unfold query_answer. change map with (@fmap list _) at 1.
  rewrite list_elem_of_fmap. setoid_rewrite merge_sort_Permutation.
  split.
  - intros ([i d] & -> & Hin). simpl.
    apply list_elem_of_In, filter_In in Hin as [Hin Hmatch].
    split; [|exact Hmatch].
    by apply elem_of_map_to_list, list_elem_of_In.
  - intros [Hlookup Hmatch].
    exists (Transaction.id t, Transaction.data t).
    split; [by destruct t|].
    apply list_elem_of_In, filter_In. split; [|exact Hmatch].
    by apply list_elem_of_In, elem_of_map_to_list.
Qed.

Lemma answer_NoDup : NoDup (Transaction.id <$> query_answer q m).
Proof.
  unfold query_answer. change map with (@fmap list _) at 1.
  rewrite <- list_fmap_compose.
  change (Transaction.id ∘ to_transaction) with (@fst string TransactionDoc.t).
  rewrite merge_sort_Permutation.
  apply (NoDup_key_filter fst), NoDup_fst_map_to_list.
Qed.

Lemma answer_sorted : StronglySorted newer (query_answer q m).
Proof.
  unfold query_answer. change map with (@fmap list _) at 1.
  apply StronglySorted_fmap with (R1 := newer_loan); [by intros [] []|].
  apply StronglySorted_merge_sort; apply _.
Qed.
End OrderedQuery.

Lemma getBorrowedTransactions_cases env db :
  getBorrowedTransactions env db =
  match fault env with
  | Some _ =>
      (db, Rejected
             (JsError "Gagal mengambil daftar transaksi. Silakan coba lagi."))
  | None =>
      (db, Resolved (query_answer [where_status TX_BORROWED] (transactions db)))
  end.
Proof.
  unfold getBorrowedTransactions, getDocsByBorrowDate, getDocs, try_catch,
    async_bind, async_ret, async_throw.
  by destruct (fault env).
Qed.

Lemma getUserTransactions_cases env userId db :
  getUserTransactions env userId db =
  match fault env with
  | Some _ =>
      (db, Rejected
             (JsError "Gagal mengambil riwayat peminjaman. Silakan coba lagi."))
  | None =>
      (db, Resolved (query_answer [where_userId userId] (transactions db)))
  end.
Proof.
  unfold getUserTransactions, getDocsByBorrowDate, getDocs, try_catch,
    async_bind, async_ret, async_throw.
  by destruct (fault env).
Qed.

Lemma matches_status st entry :
  matches [where_status st] entry = true <-> TransactionDoc.status entry = st.
Proof.
  unfold matches, where_status. simpl.
  by rewrite andb_true_r, bool_decide_eq_true.
Qed.

Lemma matches_user userId entry :
  matches [where_userId userId] entry = true <->
  TransactionDoc.userId entry = userId.
Proof.
  unfold matches, where_userId. simpl.
  by rewrite andb_true_r, bool_decide_eq_true.
Qed.

(** With a backend that answers, [hasUserBorrowedBook] resolves with
    [true] exactly when the user has a [BORROWED] entry of the book. *)
Lemma hasUserBorrowedBook_held env userId bookId db :
  fault env = None ->
  hasUserBorrowedBook env userId bookId db = (db, Resolved true) <->
  exists transactionId entry,
    transactions db !! transactionId = Some entry /\
    TransactionDoc.userId entry = userId /\
    TransactionDoc.bookId entry = bookId /\
    TransactionDoc.status entry = TX_BORROWED.
Proof.
  intros Hfault.
  unfold hasUserBorrowedBook, getDocs, try_catch, async_bind, async_ret.
  rewrite Hfault. split.
  - intros [= Hanswer].
    apply (snapshot_not_empty
             [where_userId userId; where_bookId bookId;
              where_status TX_BORROWED])
      in Hanswer as (i & d & Hlookup & Hmatch).
    exists i, d. split; [exact Hlookup|]. by apply matches_held.
  - intros (i & d & Hlookup & Hmatch). do 2 f_equal.
    apply (snapshot_not_empty
             [where_userId userId; where_bookId bookId;
              where_status TX_BORROWED]).
    exists i, d.
    split; [exact Hlookup|]. by apply matches_held.
Qed.

(** X6. When the backend answers, [getBorrowedTransactions] resolves with
    the loan entries that are [BORROWED], all of them and no other, each
    with its id and once, the later loan first, and leaves the store as
    it is.  When the backend fails it rejects with its one message. *)
Theorem borrowed_transactions_listed env db :
  (fault env = None ->
   exists list,
     getBorrowedTransactions env db = (db, Resolved list) /\
     (forall t,
        t ∈ list <->
        transactions db !! Transaction.id t = Some (Transaction.data t) /\
        TransactionDoc.status (Transaction.data t) = TX_BORROWED) /\
     NoDup (Transaction.id <$> list) /\
     StronglySorted newer list) /\
  (forall cause,
     fault env = Some cause ->
     getBorrowedTransactions env db
     = (db, Rejected
              (JsError "Gagal mengambil daftar transaksi. Silakan coba lagi."))).
Proof.
  rewrite getBorrowedTransactions_cases. split.
  - intros ->. eexists. split; [reflexivity|].
    split; [|split; [apply answer_NoDup|apply answer_sorted]].
    intros t. by rewrite answer_elem_of, matches_status.
  - by intros cause ->.
Qed.

Lemma borrowed_transactions_listed_witness :
  exists list,
    getBorrowedTransactions (online 9 "t9") lent = (lent, Resolved list) /\
    (forall t,
       t ∈ list <->
       transactions lent !! Transaction.id t = Some (Transaction.data t) /\
       TransactionDoc.status (Transaction.data t) = TX_BORROWED) /\
    NoDup (Transaction.id <$> list) /\
    StronglySorted newer list.
Proof.
  apply (borrowed_transactions_listed (online 9 "t9") lent). reflexivity.
Defined.

(** X7. When the backend answers, [getUserTransactions] resolves with the
    loan entries of that user, [BORROWED] and [RETURNED] alike, all of
    them and no other user's, each once, the later loan first.  When the
    backend fails it rejects with its one message. *)
Theorem user_transactions_listed env userId db :
  (fault env = None ->
   exists list,
     getUserTransactions env userId db = (db, Resolved list) /\
     (forall t,
        t ∈ list <->
        transactions db !! Transaction.id t = Some (Transaction.data t) /\
        TransactionDoc.userId (Transaction.data t) = userId) /\
     NoDup (Transaction.id <$> list) /\
     StronglySorted newer list) /\
  (forall cause,
     fault env = Some cause ->
     getUserTransactions env userId db
     = (db, Rejected
              (JsError "Gagal mengambil riwayat peminjaman. Silakan coba lagi."))).
Proof.
  rewrite getUserTransactions_cases. split.
  - intros ->. eexists. split; [reflexivity|].
    split; [|split; [apply answer_NoDup|apply answer_sorted]].
    intros t. by rewrite answer_elem_of, matches_user.
  - by intros cause ->.
Qed.

Lemma user_transactions_listed_witness :
  exists list,
    getUserTransactions (online 9 "t9") "u1" closed = (closed, Resolved list) /\
    (forall t,
       t ∈ list <->
       transactions closed !! Transaction.id t = Some (Transaction.data t) /\
       TransactionDoc.userId (Transaction.data t) = "u1") /\
    NoDup (Transaction.id <$> list) /\
    StronglySorted newer list.
Proof.
  apply (user_transactions_listed (online 9 "t9") "u1" closed). reflexivity.
Defined.

(** Two answers with the same entries are the same up to the order. *)
Lemma answers_same_entries (l k : list Transaction.t) :
  NoDup (Transaction.id <$> l) ->
  NoDup (Transaction.id <$> k) ->
  (forall t, t ∈ l <-> t ∈ k) ->
  l ≡ₚ k.
Proof.
  intros Hl Hk Hsame.
  apply NoDup_Permutation; [by eapply NoDup_fmap_1..|exact Hsame].
Qed.

(** X8. After a [borrowBook] that resolved (book [AVAILABLE], backend
    answering, generated id new), the list of [getBorrowedTransactions]
    is the list of before with the new loan entry added, the history of
    the borrower ([getUserTransactions]) has the new entry, and
    [hasUserBorrowedBook] answers [true] for the borrower and the
    book. *)
Theorem borrow_then_listed env env' bookId user db bookData :
  books db !! bookId = Some bookData ->
  BookDoc.status bookData = AVAILABLE ->
  fault env = None ->
  fault env' = None ->
  transactions db !! autoId env = None ->
  exists db' entry before after history,
    borrowBook env bookId user db
    = (db', Resolved (mkBorrowBookResponse (autoId env)
                        "Buku berhasil dipinjam!")) /\
    entry = Transaction.mk (autoId env)
              (TransactionDoc.mk bookId (User.uid user) (now env) None
                 TX_BORROWED (Some (BookDoc.title bookData))
                 (Some (User.name user))) /\
    getBorrowedTransactions env' db = (db, Resolved before) /\
    getBorrowedTransactions env' db' = (db', Resolved after) /\
    after ≡ₚ entry :: before /\
    getUserTransactions env' (User.uid user) db' = (db', Resolved history) /\
    entry ∈ history /\
    hasUserBorrowedBook env' (User.uid user) bookId db' = (db', Resolved true).
Proof.
  intros Hbook Hstatus Hfault Hfault' Hnew.
  destruct (borrowBook_available env bookId user db bookData Hfault Hbook
              Hstatus) as (db' & Hrun & _ & Hloans).
  set (opened := TransactionDoc.mk bookId (User.uid user) (now env) None
                   TX_BORROWED (Some (BookDoc.title bookData))
                   (Some (User.name user))) in *.
  exists db', (Transaction.mk (autoId env) opened).
  eexists _, _, _. split; [exact Hrun|]. split; [reflexivity|].
  rewrite !getBorrowedTransactions_cases, getUserTransactions_cases, Hfault'.
  split; [reflexivity|]. split; [reflexivity|].
  assert (Hfresh : forall t,
             t ∈ query_answer [where_status TX_BORROWED] (transactions db) ->
             Transaction.id t <> autoId env).
  { intros t [Hin _]%answer_elem_of. congruence. }
  split; [|split; [reflexivity|split]].
  - apply answers_same_entries.
    + apply answer_NoDup.
    + simpl. apply NoDup_cons. split; [|apply answer_NoDup].
      intros ([i d] & Hid & Hin)%list_elem_of_fmap. simpl in Hid.
      by apply Hfresh in Hin.
    + intros t. rewrite elem_of_cons, !answer_elem_of, Hloans.
      destruct (decide (Transaction.id t = autoId env)) as [Hid|Hid].
      * rewrite Hid, lookup_insert_eq, Hnew. destruct t as [i d].
        simpl in *. subst i. split.
        -- intros [[= <-] _]. by left.
        -- intros [[= ->]|[? _]]; [|done].
           split; [done|]. by apply matches_status.
      * rewrite lookup_insert_ne by done. split; [by right|].
        intros [->|?]; [done|assumption].
  - apply answer_elem_of. simpl. rewrite Hloans, lookup_insert_eq.
    split; [done|]. by apply matches_user.
  - apply hasUserBorrowedBook_held; [exact Hfault'|].
    exists (autoId env), opened. rewrite Hloans, lookup_insert_eq. done.
Qed.

Lemma borrow_then_listed_witness :
  exists db' entry before after history,
    borrowBook (online 5 "t1") "b1" ani shelf
    = (db', Resolved (mkBorrowBookResponse "t1" "Buku berhasil dipinjam!")) /\
    entry = Transaction.mk "t1"
              (TransactionDoc.mk "b1" "u1" 5 None TX_BORROWED
                 (Some "Laskar Pelangi") (Some "Ani")) /\
    getBorrowedTransactions (online 6 "t9") shelf = (shelf, Resolved before) /\
    getBorrowedTransactions (online 6 "t9") db' = (db', Resolved after) /\
    after ≡ₚ entry :: before /\
    getUserTransactions (online 6 "t9") "u1" db' = (db', Resolved history) /\
    entry ∈ history /\
    hasUserBorrowedBook (online 6 "t9") "u1" "b1" db' = (db', Resolved true).
Proof.
  apply (borrow_then_listed (online 5 "t1") (online 6 "t9") "b1" ani shelf
           (novel AVAILABLE)); reflexivity.
Defined.

(** Taking entries out of a list keeps the order of the rest. *)
Lemma StronglySorted_filter {A} (R : relation A) (f : A -> bool) l :
  StronglySorted R l -> StronglySorted R (List.filter f l).
Proof.
  induction 1 as [|x l _ IH Hx]; simpl; [constructor|].
  destruct (f x); [|exact IH].
  constructor; [exact IH|].
  apply Forall_forall. intros y Hy.
  apply list_elem_of_In, filter_In in Hy as [Hy _].
  rewrite Forall_forall in Hx. by apply Hx, list_elem_of_In.
Qed.

(** X9. The list of the return screen stays in step with the store.  If
    the screen shows what [getBorrowedTransactions] resolved with on the
    store, then after [handleReturn], whether the return went through or
    was rejected, the list it shows has the same entries as a new call of
    [getBorrowedTransactions] resolves with, and is still ordered the
    later loan first.  [handleReturn] itself always resolves. *)
Theorem return_screen_in_step env env' transaction db shown :
  fault env' = None ->
  getBorrowedTransactions env' db = (db, Resolved shown) ->
  exists db' shown' fetched,
    handleReturn env transaction shown db = (db', Resolved shown') /\
    getBorrowedTransactions env' db' = (db', Resolved fetched) /\
    shown' ≡ₚ fetched /\
    StronglySorted newer shown'.
Proof.
  intros Hfault'. rewrite getBorrowedTransactions_cases, Hfault'.
  intros [= <-].
  unfold handleReturn, try_catch, async_bind, async_ret.
  rewrite returnBook_cases.
  set (transactionId := Transaction.id transaction).
  assert (Hrejected :
            exists db' shown' fetched,
              (db, Resolved
                     (query_answer [where_status TX_BORROWED] (transactions db)))
              = (db', Resolved shown') /\
              getBorrowedTransactions env' db' = (db', Resolved fetched) /\
              shown' ≡ₚ fetched /\ StronglySorted newer shown').
  { eexists _, _, _. split; [reflexivity|].
    rewrite getBorrowedTransactions_cases, Hfault'.
    split; [reflexivity|]. split; [reflexivity|apply answer_sorted]. }
  destruct (fault env); [exact Hrejected|].
  destruct (transactions db !! transactionId) as [entry|] eqn:Hloan;
    [|exact Hrejected].
  destruct (TransactionDoc.status entry) eqn:Hstatus; [|exact Hrejected].
  destruct (books db !! TransactionDoc.bookId entry) as [bookData|];
    [|exact Hrejected].
  clear Hrejected. eexists _, _, _. split; [reflexivity|].
  rewrite getBorrowedTransactions_cases, Hfault'. split; [reflexivity|].
  split; [|apply StronglySorted_filter, answer_sorted].
  apply answers_same_entries.
  - apply (NoDup_key_filter Transaction.id), answer_NoDup.
  - apply answer_NoDup.
  - intros t. rewrite list_elem_of_In, filter_In, <- list_elem_of_In.
    rewrite !answer_elem_of, !matches_status, negb_true_iff, String.eqb_neq.
    simpl. destruct (decide (Transaction.id t = transactionId)) as [Hid|Hid].
    + rewrite Hid, lookup_insert_eq. split; [tauto|].
      intros [[= <-] Hopen]. discriminate Hopen.
    + rewrite lookup_insert_ne by done. tauto.
Qed.

Lemma return_screen_in_step_witness :
  exists db' shown' fetched,
    handleReturn (online 8 "t9")
      (Transaction.mk "t1" (loan "b1" "u1" TX_BORROWED None))
      [Transaction.mk "t1" (loan "b1" "u1" TX_BORROWED None)] lent
    = (db', Resolved shown') /\
    getBorrowedTransactions (online 9 "t9") db' = (db', Resolved fetched) /\
    shown' ≡ₚ fetched /\
    StronglySorted newer shown'.
Proof.
  apply (return_screen_in_step (online 8 "t9") (online 9 "t9")
           (Transaction.mk "t1" (loan "b1" "u1" TX_BORROWED None)) lent);
    reflexivity.
Defined.

(** ** What the helpers keep *)

(** What one call of a helper does to the loan entries, with the fields
    of the entry it writes. *)
Lemma run_transactions_fields env op db :
  transactions (run env op db) = transactions db \/
  (exists entry,
     TransactionDoc.status entry = TX_BORROWED /\
     TransactionDoc.returnDate entry = None /\
     transactions (run env op db) = <[autoId env := entry]> (transactions db)) \/
  (exists transactionId entry,
     transactions db !! transactionId = Some entry /\
     TransactionDoc.status entry = TX_BORROWED /\
     is_Some (books db !! TransactionDoc.bookId entry) /\
     transactions (run env op db)
     = <[transactionId :=
           TransactionDoc.merge (TransactionDoc.mk_patch RETURNED (now env))
             entry]> (transactions db)).
Proof.
  destruct op as [bookData cover|bookId|bookId user|transactionId]; simpl.
  - rewrite addBook_cases. left.
    destruct (fault env); [done|].
    destruct (cover_readable env cover); [|done].
    by destruct (books db !! autoId env).
  - rewrite deleteBook_cases. left. by destruct (fault env).
  - rewrite borrowBook_cases.
    destruct (fault env); [by left|].
    destruct (books db !! bookId) as [bookData|]; [|by left].
    destruct (BookDoc.status bookData); [|by left].
    right; left. eexists. split; [|split]; [| |reflexivity]; reflexivity.
  - rewrite returnBook_cases.
    destruct (fault env); [by left|].
    destruct (transactions db !! transactionId) as [entry|] eqn:Hloan;
      [|by left].
    destruct (TransactionDoc.status entry) eqn:Hstatus; [|by left].
    destruct (books db !! TransactionDoc.bookId entry) eqn:Hbook; [|by left].
    right; right. exists transactionId, entry.
    rewrite Hbook. by repeat split.
Qed.

(** No call of a helper makes a book appear under an id other than the
    generated one. *)
Lemma run_books_missing env op db bookId :
  books db !! bookId = None ->
  bookId <> autoId env ->
  books (run env op db) !! bookId = None.
Proof.
  intros Hmissing Hid.
  destruct op as [bookData cover|other|other user|transactionId]; simpl.
  - rewrite addBook_cases.
    destruct (fault env); [done|].
    destruct (cover_readable env cover); [|done].
    destruct (books db !! autoId env); [done|].
    simpl. by rewrite lookup_insert_ne.
  - rewrite deleteBook_cases.
    destruct (fault env); [done|]. simpl.
    destruct (decide (other = bookId)) as [->|Hne].
    + apply lookup_delete_eq.
    + by rewrite lookup_delete_ne.
  - rewrite borrowBook_cases.
    destruct (fault env); [done|].
    destruct (books db !! other) as [bookData|] eqn:Hother; [|done].
    destruct (BookDoc.status bookData); [|done].
    simpl. rewrite lookup_insert_ne; [done|congruence].
  - rewrite returnBook_cases.
    destruct (fault env); [done|].
    destruct (transactions db !! transactionId) as [entry|]; [|done].
    destruct (TransactionDoc.status entry); [|done].
    destruct (books db !! TransactionDoc.bookId entry) eqn:Hother; [|done].
    simpl. rewrite lookup_insert_ne; [done|congruence].
Qed.

(** X10. A loan entry has a [returnDate] exactly when it is [RETURNED]:
    from a store in which this holds for every entry, every store that
    calls of [addBook], [deleteBook], [borrowBook] and [returnBook]
    reach satisfies it again. *)
Theorem dates_consistent_reachable db db' :
  dates_consistent db ->
  reachable any_op db db' ->
  dates_consistent db'.
Proof.
  intros Hdates Hreach.
  induction Hreach as [db|db mid db' Hstep _ IH]; [exact Hdates|].
  apply IH. clear IH db'.
  destruct Hstep as (env & op & _ & (_ & Hnew & _) & ->).
  unfold dates_consistent in *.
  destruct (run_transactions_fields env op db)
    as [->|[(entry & Hstatus & Hdate & ->)
           |(transactionId & entry & Hloan & Hstatus & _ & ->)]].
  - exact Hdates.
  - apply map_Forall_insert; [exact Hnew|]. split; [|exact Hdates].
    rewrite Hstatus, Hdate. split; [by intros [? ?]|discriminate].
  - apply map_Forall_insert_2; [|exact Hdates].
    simpl. split; [reflexivity|by eexists].
Qed.

Lemma dates_consistent_reachable_witness :
  dates_consistent (run (online 8 "t9") (ReturnBook "t1") lent).
Proof.
  apply (dates_consistent_reachable lent).
  - intros i d Hd. unfold lent in Hd. simpl in Hd.
    apply lookup_singleton_Some in Hd as [<- <-]. simpl.
    split; [by intros [? ?]|discriminate].
  - apply rtc_once. exists (online 8 "t9"), (ReturnBook "t1").
    split; [reflexivity|]. split; [|reflexivity].
    apply fresh_id_decide; reflexivity.
Defined.

(** X11. The loan ledger only grows and only closes.  Along every
    sequence of calls of the helpers, a loan entry that is there stays
    there under its id, with the book, the borrower, the borrow date and
    the copied title and name it had; and it is either unchanged or was
    [BORROWED] and is now [RETURNED]. *)
Theorem ledger_append_only db db' transactionId entry :
  transactions db !! transactionId = Some entry ->
  reachable any_op db db' ->
  exists entry',
    transactions db' !! transactionId = Some entry' /\
    TransactionDoc.bookId entry' = TransactionDoc.bookId entry /\
    TransactionDoc.userId entry' = TransactionDoc.userId entry /\
    TransactionDoc.borrowDate entry' = TransactionDoc.borrowDate entry /\
    TransactionDoc.bookTitle entry' = TransactionDoc.bookTitle entry /\
    TransactionDoc.userName entry' = TransactionDoc.userName entry /\
    (entry' = entry \/
     TransactionDoc.status entry = TX_BORROWED /\
     TransactionDoc.status entry' = RETURNED).
Proof.
  intros Hloan Hreach. revert entry Hloan.
  induction Hreach as [db|db mid db' Hstep _ IH]; intros entry Hloan.
  { exists entry. repeat split; try done. by left. }
  assert (Hmid : exists between,
             transactions mid !! transactionId = Some between /\
             (between = entry \/
              TransactionDoc.status entry = TX_BORROWED /\
              between = TransactionDoc.merge
                          (TransactionDoc.mk_patch RETURNED
                             (default 0 (TransactionDoc.returnDate between)))
                          entry)).
  { destruct Hstep as (env & op & _ & (_ & Hnew & _) & ->).
    destruct (run_transactions_fields env op db)
      as [->|[(new & _ & _ & ->)|(other & old & Hother & Hopen & _ & ->)]].
    - exists entry. split; [exact Hloan|by left].
    - exists entry. split; [|by left].
      rewrite lookup_insert_ne; [exact Hloan|congruence].
    - destruct (decide (other = transactionId)) as [->|Hne].
      + rewrite lookup_insert_eq. eexists. split; [reflexivity|].
        right. rewrite Hloan in Hother. injection Hother as <-. done.
      + rewrite lookup_insert_ne by done.
        exists entry. split; [exact Hloan|by left]. }
  destruct Hmid as (between & Hbetween & Hcase).
  destruct (IH between Hbetween)
    as (entry' & Hlast & Hbook & Huser & Hdate & Htitle & Hname & Hend).
  exists entry'. split; [exact Hlast|].
  destruct Hcase as [->|[Hopen Hclosed]]; [done|].
  rewrite Hclosed in Hbook, Huser, Hdate, Htitle, Hname, Hend.
  simpl in *. do 5 (split; [done|]).
  right. split; [exact Hopen|].
  destruct Hend as [->|[Hno _]]; [by rewrite Hclosed|discriminate Hno].
Qed.

Lemma ledger_append_only_witness :
  exists entry',
    transactions (run (online 8 "t9") (ReturnBook "t1") lent) !! "t1"
    = Some entry' /\
    TransactionDoc.bookId entry' = "b1" /\
    TransactionDoc.userId entry' = "u1" /\
    TransactionDoc.borrowDate entry' = 2 /\
    TransactionDoc.bookTitle entry' = Some "Laskar Pelangi" /\
    TransactionDoc.userName entry' = Some "Ani" /\
    (entry' = loan "b1" "u1" TX_BORROWED None \/
     TX_BORROWED = TX_BORROWED /\ TransactionDoc.status entry' = RETURNED).
Proof.
  apply (ledger_append_only lent _ "t1" (loan "b1" "u1" TX_BORROWED None)).
  - reflexivity.
  - apply rtc_once. exists (online 8 "t9"), (ReturnBook "t1").
    split; [reflexivity|]. split; [|reflexivity].
    apply fresh_id_decide; reflexivity.
Defined.

(** X12. A loan whose book was deleted can never be closed.  If a loan
    entry is [BORROWED] and its book does not exist, then after every
    sequence of calls of the helpers (generated ids new) the book still
    does not exist, the entry is unchanged, and [returnBook] on it is
    rejected and writes nothing, whatever the backend does. *)
Theorem orphaned_loan_stays_open db db' transactionId entry :
  transactions db !! transactionId = Some entry ->
  TransactionDoc.status entry = TX_BORROWED ->
  books db !! TransactionDoc.bookId entry = None ->
  reachable any_op db db' ->
  books db' !! TransactionDoc.bookId entry = None /\
  transactions db' !! transactionId = Some entry /\
  (forall env,
     exists error, returnBook env transactionId db' = (db', Rejected error)).
Proof.
  intros Hloan Hstatus Hbook Hreach.
  assert (Hkept : books db' !! TransactionDoc.bookId entry = None /\
                  transactions db' !! transactionId = Some entry).
  { induction Hreach as [db|db mid db' Hstep _ IH]; [done|].
    destruct Hstep as (env & op & _ & (_ & Hnew & Hrefs) & ->).
    apply IH.
    - destruct (run_transactions_fields env op db)
        as [->|[(new & _ & _ & ->)
               |(other & old & Hother & _ & [bd Hbd] & ->)]].
      + exact Hloan.
      + rewrite lookup_insert_ne; [exact Hloan|congruence].
      + rewrite lookup_insert_ne; [exact Hloan|].
        intros ->. congruence.
    - apply run_books_missing; [exact Hbook|].
      intros Hid. exact (Hrefs transactionId entry Hloan Hid). }
  destruct Hkept as [Hbook' Hloan']. split; [exact Hbook'|].
  split; [exact Hloan'|].
  intros env. rewrite returnBook_cases, Hloan', Hstatus, Hbook'.
  destruct (fault env); eexists; reflexivity.
Qed.

Lemma orphaned_loan_stays_open_witness :
  books (run (online 8 "b2") (AddBook novel_input None) orphaned) !! "b1" = None /\
  transactions (run (online 8 "b2") (AddBook novel_input None) orphaned) !! "t1"
  = Some (loan "b1" "u1" TX_BORROWED None) /\
  (forall env,
     exists error,
       returnBook env "t1" (run (online 8 "b2") (AddBook novel_input None) orphaned)
       = (run (online 8 "b2") (AddBook novel_input None) orphaned,
          Rejected error)).
Proof.
  apply (orphaned_loan_stays_open orphaned _ "t1"
           (loan "b1" "u1" TX_BORROWED None)); try reflexivity.
  apply rtc_once. exists (online 8 "b2"), (AddBook novel_input None).
  split; [reflexivity|]. split; [|reflexivity].
  apply fresh_id_decide; reflexivity.
Defined.

(** A map with at most one entry has at most one key. *)
Lemma map_size_le_1_key {A} (m : gmap string A) i j x y :
  size m <= 1 -> m !! i = Some x -> m !! j = Some y -> i = j.
Proof.
  intros Hsize Hi Hj.
  destruct (decide (i = j)) as [|Hne]; [done|exfalso].
  assert (Hj' : delete i m !! j = Some y) by by rewrite lookup_delete_ne.
  assert (size (delete i m) <> 0)
    by (apply map_size_ne_0_lookup_2 with j; eauto).
  rewrite map_size_delete, Hi in *. simpl in *. lia.
Qed.

(** X13. One holder at a time.  In a store that satisfies the invariant
    of books and loans, if [hasUserBorrowedBook] answers [true] for two
    users and the same existing book, the two are the same user; and the
    book is then [BORROWED]. *)
Theorem one_holder_at_a_time env db bookId bookData user1 user2 :
  loan_invariant db ->
  books db !! bookId = Some bookData ->
  fault env = None ->
  hasUserBorrowedBook env user1 bookId db = (db, Resolved true) ->
  (BookDoc.status bookData = BORROWED) /\
  (hasUserBorrowedBook env user2 bookId db = (db, Resolved true) ->
   user1 = user2).
Proof.
  intros Hinv Hbook Hfault Hheld1.
  apply hasUserBorrowedBook_held in Hheld1
    as (t1 & d1 & Hd1 & Hu1 & Hb1 & Hs1); [|exact Hfault].
  assert (Hin1 : loans_of TX_BORROWED bookId db !! t1 = Some d1)
    by by apply map_lookup_filter_Some.
  pose proof (Hinv bookId bookData Hbook) as Hcount. unfold outstanding in Hcount.
  assert (Hpos : size (loans_of TX_BORROWED bookId db) <> 0)
    by (apply map_size_ne_0_lookup_2 with t1; eauto).
  split.
  - destruct (BookDoc.status bookData); [|done]. simpl in Hcount. lia.
  - intros (t2 & d2 & Hd2 & Hu2 & Hb2 & Hs2)%hasUserBorrowedBook_held;
      [|exact Hfault].
    assert (Hin2 : loans_of TX_BORROWED bookId db !! t2 = Some d2)
      by by apply map_lookup_filter_Some.
    assert (Hle : size (loans_of TX_BORROWED bookId db) <= 1)
      by (rewrite Hcount; destruct (BookDoc.status bookData); simpl; lia).
    assert (t1 = t2) as <- by exact (map_size_le_1_key _ _ _ _ _ Hle Hin1 Hin2).
    congruence.
Qed.

Lemma one_holder_at_a_time_witness :
  BookDoc.status (novel BORROWED) = BORROWED /\
  (hasUserBorrowedBook (online 9 "t9") "u2" "b1" lent = (lent, Resolved true) ->
   "u1" = "u2").
Proof.
  apply (one_holder_at_a_time (online 9 "t9") lent "b1" (novel BORROWED)
           "u1" "u2"); try reflexivity.
  intros i d Hd. unfold lent in Hd. simpl in Hd.
  apply lookup_singleton_Some in Hd as [<- <-]. reflexivity.
Defined.

(** ** The dashboard and the history screen *)

Global Instance newer_book_total : Total newer_book.
Proof. intros x y. unfold newer_book. lia. Qed.

Global Instance newer_book_transitive : Transitive newer_book.
Proof. intros x y z. unfold newer_book. lia. Qed.

Lemma getAllBooks_cases env db :
  getAllBooks env db =
  match fault env with
  | Some _ =>
      (db, Rejected (JsError "Gagal mengambil daftar buku. Silakan coba lagi."))
  | None =>
      (db, Resolved
             (map to_book
                (merge_sort newer_book
                   (List.filter
                      (fun kd =>
                         bool_decide (is_Some (BookDoc.createdAt (snd kd))))
                      (map_to_list (books db))))))
  end.
Proof.
  unfold getAllBooks, getDocsByCreatedAt, try_catch, async_bind, async_ret,
    async_throw.
  by destruct (fault env).
Qed.

(** The books [getAllBooks] resolves with are the books of the store
    that have the [createdAt] field. *)
Lemma all_books_elem_of (m : gmap string BookDoc.t) (b : Book) :
  b ∈ map to_book
        (merge_sort newer_book
           (List.filter
              (fun kd => bool_decide (is_Some (BookDoc.createdAt (snd kd))))
              (map_to_list m))) <->
  m !! id b = Some (data b) /\ is_Some (BookDoc.createdAt (data b)).
Proof.
  change map with (@fmap list _) at 1.
  rewrite list_elem_of_fmap. setoid_rewrite merge_sort_Permutation.
  split.
  - intros ([i d] & -> & Hin). simpl.
    apply list_elem_of_In, filter_In in Hin as [Hin Hcreated].
    split; [by apply elem_of_map_to_list, list_elem_of_In|].
    by apply bool_decide_eq_true in Hcreated.
  - intros [Hlookup Hcreated]. exists (id b, data b).
    split; [by destruct b|].
    apply list_elem_of_In, filter_In.
    split; [by apply list_elem_of_In, elem_of_map_to_list|].
    by apply bool_decide_eq_true.
Qed.

Lemma all_books_NoDup (m : gmap string BookDoc.t) :
  NoDup (id <$> map to_book
                  (merge_sort newer_book
                     (List.filter
                        (fun kd =>
                           bool_decide (is_Some (BookDoc.createdAt (snd kd))))
                        (map_to_list m)))).
Proof.
  change map with (@fmap list _) at 1.
  rewrite <- list_fmap_compose.
  change (id ∘ to_book) with (@fst string BookDoc.t).
  rewrite merge_sort_Permutation.
  apply (NoDup_key_filter fst), NoDup_fst_map_to_list.
Qed.

(** Every book is counted as available or as borrowed, never both. *)
Lemma status_counts (l : list Book) :
  length (List.filter (has_status AVAILABLE) l)
  + length (List.filter (has_status BORROWED) l) = length l.
Proof.
  induction l as [|b l IH]; simpl; [done|].
  assert (Heither : has_status AVAILABLE b = negb (has_status BORROWED b))
    by (unfold has_status; by destruct (BookDoc.status (data b))).
  rewrite Heither. destruct (has_status BORROWED b); simpl; lia.
Qed.

Lemma filter_all {A} (f : A -> bool) (l : list A) :
  (forall x, In x l -> f x = true) -> List.filter f l = l.
Proof.
  induction l as [|x l IH]; simpl; [done|]. intros Hall.
  rewrite (Hall x) by by left. f_equal. apply IH. intros y Hy.
  apply Hall. by right.
Qed.

(** X14. The numbers of the admin dashboard.  When the backend answers,
    [fetchDashboardData] shows numbers in which the available and the
    borrowed books add up to the total, the total is the number of books
    in the store when every book has the [createdAt] field (and never
    more), and, in a store that satisfies the invariant of books and
    loans, the borrowed books are never more than the active loans.
    When a read fails the old numbers stay; the fetch never rejects. *)
Theorem dashboard_numbers env stats db :
  (fault env = None ->
   exists shown,
     fetchDashboardData env stats db = (db, Resolved shown) /\
     availableBooks shown + borrowedBooks shown = totalBooks shown /\
     totalBooks shown <= size (books db) /\
     (all_created db -> totalBooks shown = size (books db)) /\
     (loan_invariant db -> borrowedBooks shown <= activeBorrows shown)) /\
  (forall cause,
     fault env = Some cause ->
     fetchDashboardData env stats db = (db, Resolved stats)).
Proof.
  unfold fetchDashboardData, try_catch, async_bind, async_ret.
  rewrite getAllBooks_cases. split.
  - intros Hfault. rewrite Hfault, getBorrowedTransactions_cases, Hfault.
    eexists. split; [reflexivity|]. simpl.
    set (listed := map to_book _).
    set (active := query_answer _ _).
    split; [apply status_counts|].
    assert (Hlength : forall l : list (string * BookDoc.t),
               length (map to_book (merge_sort newer_book l)) = length l).
    { intros l. by rewrite length_map, merge_sort_Permutation. }
    split; [|split].
    + subst listed. rewrite Hlength, <- length_map_to_list.
      apply filter_length_le.
    + intros Hcreated. subst listed.
      rewrite Hlength, <- length_map_to_list. f_equal.
      apply filter_all. intros [i d] Hin. simpl.
      apply bool_decide_eq_true, (Hcreated i d).
      by apply elem_of_map_to_list, list_elem_of_In.
    + intros Hinv.
      rewrite <- (length_map id (List.filter (has_status BORROWED) listed)).
      rewrite <- (length_map (fun t => TransactionDoc.bookId (Transaction.data t))
                   active).
      apply NoDup_incl_length.
      * apply NoDup_ListNoDup, (NoDup_key_filter id), all_books_NoDup.
      * intros i Hi.
        apply in_map_iff in Hi as (b & <- & Hb).
        apply filter_In in Hb as [Hb Hborrowed].
        apply list_elem_of_In, all_books_elem_of in Hb as [Hb _].
        unfold has_status in Hborrowed.
        apply bool_decide_eq_true in Hborrowed.
        pose proof (Hinv (id b) (data b) Hb) as Hcount. simpl in Hcount.
        rewrite Hborrowed in Hcount. unfold outstanding in Hcount.
        assert (Hpos : size (loans_of TX_BORROWED (id b) db) <> 0)
          by (rewrite Hcount; done).
        apply map_size_ne_0_lookup_1 in Hpos as (t & d & Hd).
        apply map_lookup_filter_Some in Hd as (Hd & Hbook & Hopen).
        simpl in *. apply in_map_iff.
        exists (Transaction.mk t d). split; [exact Hbook|].
        apply list_elem_of_In, answer_elem_of. simpl.
        split; [exact Hd|by apply matches_status].
  - by intros cause ->.
Qed.

Lemma dashboard_numbers_witness :
  exists shown,
    fetchDashboardData (online 9 "t9") (mkDashboardStats 0 0 0 0) lent
    = (lent, Resolved shown) /\
    availableBooks shown + borrowedBooks shown = totalBooks shown /\
    totalBooks shown <= size (books lent) /\
    (all_created lent -> totalBooks shown = size (books lent)) /\
    (loan_invariant lent -> borrowedBooks shown <= activeBorrows shown).
Proof.
  apply (dashboard_numbers (online 9 "t9") (mkDashboardStats 0 0 0 0) lent).
  reflexivity.
Defined.

(** X15. The tabs of the history screen.  The counters of borrowed and
    of returned loans add up to the number of entries; the tab "all"
    shows every entry, the tabs "borrowed" and "returned" show as many
    entries as their counters say, and every entry is on exactly one of
    the two. *)
Theorem history_tabs (transactions : list Transaction.t) :
  borrowedCount transactions + returnedCount transactions
  = length transactions /\
  filteredTransactions FilterType.all transactions = transactions /\
  length (filteredTransactions FilterType.borrowed transactions)
  = borrowedCount transactions /\
  length (filteredTransactions FilterType.returned transactions)
  = returnedCount transactions /\
  (forall t,
     In t transactions ->
     (In t (filteredTransactions FilterType.borrowed transactions) /\
      ~ In t (filteredTransactions FilterType.returned transactions)) \/
     (In t (filteredTransactions FilterType.returned transactions) /\
      ~ In t (filteredTransactions FilterType.borrowed transactions))).
Proof.
  split; [|split; [|split; [reflexivity|split; [reflexivity|]]]].
  - unfold borrowedCount, returnedCount.
    induction transactions as [|t l IH]; simpl; [done|].
    destruct (TransactionDoc.status (Transaction.data t)); simpl; lia.
  - unfold filteredTransactions. by apply filter_all.
  - intros t Hin. unfold filteredTransactions. rewrite !filter_In.
    rewrite !bool_decide_eq_true.
    destruct (TransactionDoc.status (Transaction.data t)) eqn:Hstatus.
    + left. split; [done|]. intros [_ ?]. discriminate.
    + right. split; [done|]. intros [_ ?]. discriminate.
Qed.

Lemma history_tabs_witness :
  In (Transaction.mk "t1" (loan "b1" "u1" RETURNED (Some 7)))
    (filteredTransactions FilterType.returned
       [Transaction.mk "t1" (loan "b1" "u1" RETURNED (Some 7))]).
Proof.
  destruct (history_tabs [Transaction.mk "t1" (loan "b1" "u1" RETURNED (Some 7))])
    as (_ & _ & _ & _ & Htabs).
  destruct (Htabs (Transaction.mk "t1" (loan "b1" "u1" RETURNED (Some 7))))
    as [[_ Hno]|[Hyes _]].
  - by left.
  - exfalso. apply Hno. vm_compute. by left.
  - exact Hyes.
Defined.

(** ** The list of books *)

Lemma all_books_sorted (m : gmap string BookDoc.t) :
  StronglySorted newer_created
    (map to_book
       (merge_sort newer_book
          (List.filter
             (fun kd => bool_decide (is_Some (BookDoc.createdAt (snd kd))))
             (map_to_list m)))).
Proof.
  change map with (@fmap list _) at 1.
  apply StronglySorted_fmap with (R1 := newer_book); [by intros [] []|].
  apply StronglySorted_merge_sort; apply _.
Qed.

(** What one call of a helper does to the books: nothing, or a new book
    with its [createdAt] under the generated id, or one book deleted, or
    the status and the [updatedAt] of one book written. *)
Lemma run_books env op db :
  books (run env op db) = books db \/
  (exists d,
     is_Some (BookDoc.createdAt d) /\
     books (run env op db) = <[autoId env := d]> (books db)) \/
  (exists bookId, books (run env op db) = delete bookId (books db)) \/
  (exists bookId d p,
     books db !! bookId = Some d /\
     books (run env op db) = <[bookId := BookDoc.merge p d]> (books db)).
Proof.
  destruct op as [bookData cover|bookId|bookId user|transactionId]; simpl.
  - rewrite addBook_cases.
    destruct (fault env); [by left|].
    destruct (cover_readable env cover); [|by left].
    destruct (books db !! autoId env); [by left|].
    right; left. eexists. split; [|reflexivity]. by eexists.
  - rewrite deleteBook_cases.
    destruct (fault env); [by left|]. right; right; left. by eexists.
  - rewrite borrowBook_cases.
    destruct (fault env); [by left|].
    destruct (books db !! bookId) as [bookData|] eqn:Hbook; [|by left].
    destruct (BookDoc.status bookData); [|by left].
    right; right; right. by eexists _, _, _.
  - rewrite returnBook_cases.
    destruct (fault env); [by left|].
    destruct (transactions db !! transactionId) as [entry|]; [|by left].
    destruct (TransactionDoc.status entry); [|by left].
    destruct (books db !! TransactionDoc.bookId entry) eqn:Hbook; [|by left].
    right; right; right. by eexists _, _, _.
Qed.

(** X16. When the backend answers, [getAllBooks] resolves with the books
    that have the [createdAt] field, all of them and no other, each with
    its id and once, the book created later first.  Every book that
    [addBook] adds has the field and no helper takes it away: from a
    store in which every book has it, after any sequence of calls of the
    helpers [getAllBooks] lists every book of the store.  When the
    backend fails, [getAllBooks] rejects with its one message. *)
Theorem all_books_listed env db0 db :
  (fault env = None ->
   exists list,
     getAllBooks env db = (db, Resolved list) /\
     (forall b,
        b ∈ list <->
        books db !! id b = Some (data b) /\
        is_Some (BookDoc.createdAt (data b))) /\
     NoDup (id <$> list) /\
     StronglySorted newer_created list /\
     (all_created db0 ->
      reachable any_op db0 db ->
      forall i d, books db !! i = Some d -> mkBook i d ∈ list)) /\
  (forall cause,
     fault env = Some cause ->
     getAllBooks env db
     = (db, Rejected (JsError "Gagal mengambil daftar buku. Silakan coba lagi."))).
Proof.
  rewrite getAllBooks_cases. split; [|by intros cause ->].
  intros ->. eexists. split; [reflexivity|].
  split; [apply all_books_elem_of|].
  split; [apply all_books_NoDup|].
  split; [apply all_books_sorted|].
  intros Hcreated Hreach i d Hbook.
  apply all_books_elem_of. simpl. split; [exact Hbook|].
  revert i d Hbook.
  induction Hreach as [db|db mid db' Hstep _ IH]; [exact Hcreated|].
  apply IH. clear IH db'.
  destruct Hstep as (env' & op & _ & _ & ->).
  unfold all_created in *.
  destruct (run_books env' op db)
    as [->|[(d & Hd & ->)|[(bookId & ->)|(bookId & d & p & Hbook & ->)]]].
  - exact Hcreated.
  - by apply map_Forall_insert_2.
  - by apply map_Forall_delete.
  - apply map_Forall_insert_2; [|exact Hcreated].
    simpl. exact (Hcreated bookId d Hbook).
Qed.

Lemma all_books_listed_witness :
  exists list,
    getAllBooks (online 9 "t9") lent = (lent, Resolved list) /\
    (forall b,
       b ∈ list <->
       books lent !! id b = Some (data b) /\
       is_Some (BookDoc.createdAt (data b))) /\
    NoDup (id <$> list) /\
    StronglySorted newer_created list /\
    (all_created lent ->
     reachable any_op lent lent ->
     forall i d, books lent !! i = Some d -> mkBook i d ∈ list).
Proof.
  apply (all_books_listed (online 9 "t9") lent lent). reflexivity.
Defined.

(** ** Updating a book *)

(** [updateBook] along its paths: the backend fails, the new cover
    cannot be read, the data holds [undefined], the book is missing, or
    the book is updated.  The cover URL it has at hand when it builds the
    data is the download URL of the new cover, or what the updates
    give. *)
Lemma updateBook_cases env bookId updates newCoverImageUri db :
  updateBook env bookId updates newCoverImageUri db =
  match fault env with
  | Some _ => (db, Rejected (JsError "Gagal update buku. Silakan coba lagi."))
  | None =>
      if cover_readable env newCoverImageUri
      then
        let coverUrl :=
          match newCoverImageUri with
          | None | Some EmptyString => read (u_coverUrl updates)
          | Some _ => Some (downloadURL env)
          end in
        if has_undefined (update_data env updates coverUrl)
        then (db, Rejected (JsError "Gagal update buku. Silakan coba lagi."))
        else
          match books db !! bookId with
          | Some d =>
              (set_books
                 (insert bookId
                    (apply_updates (update_data env updates coverUrl) d)) db,
               Resolved tt)
          | None =>
              (db, Rejected (JsError "Gagal update buku. Silakan coba lagi."))
          end
      else (db, Rejected (JsError "Gagal update buku. Silakan coba lagi."))
  end.
Proof.
  unfold updateBook, getBookById, getDoc, uploadImage, uriToBlob, uploadBytes,
    deleteImage, updateDoc, cover_readable, try_catch, async_bind, async_ret,
    async_throw.
  destruct (fault env) as [error|] eqn:Hfault; [reflexivity|].
  destruct (books db !! bookId) as [d|] eqn:Hbook;
    destruct newCoverImageUri as [[|c uri]|]; cbn;
    try destruct (unreadable env (String c uri)); cbn;
    rewrite ?Hfault; cbn;
    try destruct (BookDoc.coverUrl d); cbn;
    repeat match goal with
           | |- context [has_undefined ?u] => destruct (has_undefined u)
           end;
    rewrite ?Hfault, ?Hbook; reflexivity.
Qed.

(** X17. What [updateBook] leaves alone.  Whatever the updates, the
    cover and the backend: no loan entry is touched, no book is added or
    removed, every other book is unchanged, and the book itself keeps its
    [createdAt].  When it fails it rejects with its one message and
    writes nothing; it fails in particular for an id that is no
    book's. *)
Theorem update_keeps_the_rest env bookId updates newCoverImageUri db :
  transactions (fst (updateBook env bookId updates newCoverImageUri db))
  = transactions db /\
  dom (books (fst (updateBook env bookId updates newCoverImageUri db)))
  = dom (books db) /\
  (forall other,
     other <> bookId ->
     books (fst (updateBook env bookId updates newCoverImageUri db)) !! other
     = books db !! other) /\
  (forall d,
     books db !! bookId = Some d ->
     exists d',
       books (fst (updateBook env bookId updates newCoverImageUri db)) !! bookId
       = Some d' /\
       BookDoc.createdAt d' = BookDoc.createdAt d) /\
  (forall db' error,
     updateBook env bookId updates newCoverImageUri db = (db', Rejected error) ->
     db' = db /\ error = JsError "Gagal update buku. Silakan coba lagi.") /\
  (books db !! bookId = None ->
   updateBook env bookId updates newCoverImageUri db
   = (db, Rejected (JsError "Gagal update buku. Silakan coba lagi."))).
Proof.
  rewrite updateBook_cases.
  destruct (fault env).
  { repeat split; try done; try congruence; eauto. }
  destruct (cover_readable env newCoverImageUri).
  2: { repeat split; try done; try congruence; eauto. }
  cbv zeta. destruct (has_undefined _).
  { repeat split; try done; try congruence; eauto. }
  destruct (books db !! bookId) as [d|] eqn:Hbook.
  - simpl. split; [reflexivity|]. split.
    { rewrite dom_insert_L.
      apply subseteq_union_1_L, singleton_subseteq_l, elem_of_dom. eauto. }
    split; [intros other Hother; by apply lookup_insert_ne|].
    split; [|split; [discriminate|discriminate]].
    intros ? [= <-]. rewrite lookup_insert_eq. eexists. split; reflexivity.
  - repeat split; try done; congruence.
Qed.

Lemma update_keeps_the_rest_witness :
  updateBook (online 9 "t9") "b7" (save_edit_updates "Judul" "Penulis" "Isi")
    None lent
  = (lent, Rejected (JsError "Gagal update buku. Silakan coba lagi.")).
Proof.
  apply (update_keeps_the_rest (online 9 "t9") "b7"
           (save_edit_updates "Judul" "Penulis" "Isi") None lent).
  reflexivity.
Defined.

(** X18. What [updateBook] writes.  For a book that exists, a backend
    that answers and updates none of whose keys holds [undefined], the
    call resolves when the new cover, if one was picked, can be read: a
    field whose key has a value gets that value and every other field
    stays, except that [updatedAt] is always the commit time, whatever
    the updates say, and that the cover URL is the download URL of the
    new cover when one was picked and uploaded.  When the new cover
    cannot be read, the call rejects with its one message and writes
    nothing. *)
Theorem update_effect env bookId updates newCoverImageUri db d :
  books db !! bookId = Some d ->
  fault env = None ->
  has_undefined updates = false ->
  (cover_readable env newCoverImageUri = true ->
   exists db' d',
     updateBook env bookId updates newCoverImageUri db = (db', Resolved tt) /\
     books db' !! bookId = Some d' /\
     BookDoc.title d' = updated (u_title updates) (BookDoc.title d) /\
     BookDoc.author d' = updated (u_author updates) (BookDoc.author d) /\
     BookDoc.status d' = updated (u_status updates) (BookDoc.status d) /\
     BookDoc.description d'
     = updated_optional (u_description updates) (BookDoc.description d) /\
     BookDoc.isbn d' = updated_optional (u_isbn updates) (BookDoc.isbn d) /\
     BookDoc.createdAt d' = BookDoc.createdAt d /\
     BookDoc.updatedAt d' = Some (now env) /\
     BookDoc.coverUrl d'
     = match newCoverImageUri, downloadURL env with
       | None, _ | Some EmptyString, _ | _, EmptyString =>
           updated (u_coverUrl updates) (BookDoc.coverUrl d)
       | Some _, url => url
       end) /\
  (cover_readable env newCoverImageUri = false ->
   updateBook env bookId updates newCoverImageUri db
   = (db, Rejected (JsError "Gagal update buku. Silakan coba lagi."))).
Proof.
  intros Hbook Hfault Hdefined.
  rewrite updateBook_cases, Hfault.
  split; intros ->; [|reflexivity]. cbv zeta.
  assert (Hdata : forall coverUrl,
             has_undefined (update_data env updates coverUrl) = false).
  { intros coverUrl. revert Hdefined. unfold has_undefined. simpl.
    destruct (u_title updates), (u_author updates), (u_status updates),
      (u_description updates), (u_isbn updates), (u_coverUrl updates),
      (u_updatedAt updates); simpl; try discriminate;
      by destruct coverUrl as [[|? ?]|]. }
  rewrite Hdata, Hbook. eexists _, _. split; [reflexivity|]. simpl.
  split; [apply lookup_insert_eq|]. simpl.
  do 7 (split; [reflexivity|]).
  destruct newCoverImageUri as [[|c uri]|]; simpl.
  - by destruct (u_coverUrl updates) as [| |[|? ?]].
  - by destruct (downloadURL env).
  - by destruct (u_coverUrl updates) as [| |[|? ?]].
Qed.

Lemma update_effect_witness :
  (exists db' d',
     updateBook (lost_cover 9 "t9") "b1"
       (save_edit_updates "Judul" "Penulis" "Isi")
       (Some "file:///cover.jpg") lent = (db', Resolved tt) /\
     books db' !! "b1" = Some d' /\
     BookDoc.title d' = "Judul" /\
     BookDoc.author d' = "Penulis" /\
     BookDoc.status d' = BORROWED /\
     BookDoc.description d' = Some "Isi" /\
     BookDoc.isbn d' = None /\
     BookDoc.createdAt d' = Some 1 /\
     BookDoc.updatedAt d' = Some 9 /\
     BookDoc.coverUrl d' = "https://storage.example/cover.jpg") /\
  updateBook (lost_cover 9 "t9") "b1"
    (save_edit_updates "Judul" "Penulis" "Isi") (Some "file:///gone.jpg") lent
  = (lent, Rejected (JsError "Gagal update buku. Silakan coba lagi.")).
Proof.
  split.
  - apply (update_effect (lost_cover 9 "t9") "b1"
             (save_edit_updates "Judul" "Penulis" "Isi")
             (Some "file:///cover.jpg") lent (novel BORROWED)); reflexivity.
  - apply (update_effect (lost_cover 9 "t9") "b1"
             (save_edit_updates "Judul" "Penulis" "Isi")
             (Some "file:///gone.jpg") lent (novel BORROWED)); reflexivity.
Defined.

(** X19. Saving the edit form with an empty description always fails.
    [handleSaveEdit] passes [description || undefined], so for an empty
    description the data of the update holds [undefined]; [updateBook]
    then rejects with its one message and writes nothing, whatever the
    book, the title, the author and the backend.  With a description
    that is not empty, an existing book and a backend that answers, the
    same call resolves. *)
Theorem save_edit_empty_description env bookId title author db :
  updateBook env bookId (save_edit_updates title author "") None db
  = (db, Rejected (JsError "Gagal update buku. Silakan coba lagi.")) /\
  (forall description,
     description <> "" ->
     fault env = None ->
     is_Some (books db !! bookId) ->
     exists db',
       updateBook env bookId (save_edit_updates title author description)
         None db = (db', Resolved tt)).
Proof.
  split.
  - rewrite updateBook_cases. by destruct (fault env).
  - intros description Hdescription Hfault [d Hbook].
    rewrite updateBook_cases, Hfault. cbv zeta.
    destruct description as [|c rest]; [done|]. cbn.
    rewrite Hbook. by eexists.
Qed.

Lemma save_edit_empty_description_witness :
  exists db',
    updateBook (online 9 "t9") "b1" (save_edit_updates "Judul" "Penulis" "Isi")
      None lent = (db', Resolved tt).
Proof.
  apply (save_edit_empty_description (online 9 "t9") "b1" "Judul" "Penulis"
           lent); [discriminate|reflexivity|by eexists].
Defined.

(** X20. Toggling the status of a lent book lets it be lent twice.  For
    a book that is [BORROWED] with a loan entry that is [BORROWED], the
    update of [handleToggleStatus] resolves and sets the book
    [AVAILABLE] without touching the loan entry; a [borrowBook] on the
    book then resolves, and the book is [BORROWED] with one more
    [BORROWED] loan entry than before, at least two: the invariant of
    books and loans is lost. *)
Theorem toggle_then_borrow
    env1 env2 bookId bookData transactionId entry user db :
  books db !! bookId = Some bookData ->
  BookDoc.status bookData = BORROWED ->
  transactions db !! transactionId = Some entry ->
  TransactionDoc.bookId entry = bookId ->
  TransactionDoc.status entry = TX_BORROWED ->
  fault env1 = None ->
  fault env2 = None ->
  transactions db !! autoId env2 = None ->
  exists db1 db2 response,
    updateBook env1 bookId (toggle_updates (mkBook bookId bookData)) None db
    = (db1, Resolved tt) /\
    BookDoc.status <$> books db1 !! bookId = Some AVAILABLE /\
    transactions db1 = transactions db /\
    borrowBook env2 bookId user db1 = (db2, Resolved response) /\
    BookDoc.status <$> books db2 !! bookId = Some BORROWED /\
    transactions db2 !! transactionId = Some entry /\
    outstanding bookId db2 = S (outstanding bookId db) /\
    2 <= outstanding bookId db2 /\
    ~ spec_invariant db2.
Proof.
  intros Hbook Hstatus Hloan Hentry Hopen Hfault1 Hfault2 Hnew.
  rewrite updateBook_cases, Hfault1. cbv zeta. unfold toggle_updates.
  simpl. rewrite Hstatus. cbn. rewrite Hbook.
  set (toggledBook := apply_updates _ bookData).
  set (db1 := set_books (insert bookId toggledBook) db).
  assert (Hbook1 : books db1 !! bookId = Some toggledBook)
    by apply lookup_insert_eq.
  destruct (borrowBook_available env2 bookId user db1 toggledBook Hfault2
              Hbook1 eq_refl) as (db2 & Hrun & Hbooks2 & Hloans2).
  exists db1, db2. eexists. split; [reflexivity|].
  split; [by rewrite Hbook1|]. split; [reflexivity|].
  split; [exact Hrun|].
  split; [by rewrite Hbooks2, lookup_insert_eq|].
  split.
  { rewrite Hloans2. simpl. rewrite lookup_insert_ne; [exact Hloan|].
    congruence. }
  assert (Hcount : outstanding bookId db2 = S (outstanding bookId db)).
  { erewrite (outstanding_opened bookId db db2 (autoId env2));
      [|exact Hnew|exact Hloans2|reflexivity].
    simpl. by rewrite decide_True. }
  assert (Hpos : outstanding bookId db <> 0).
  { unfold outstanding. apply map_size_ne_0_lookup_2 with transactionId.
    exists entry. by apply map_lookup_filter_Some. }
  split; [exact Hcount|]. split; [rewrite Hcount; lia|].
  intros Hinv.
  assert (Hlent : books db2 !! bookId
                  = Some (BookDoc.merge (BookDoc.mk_patch BORROWED (now env2))
                            toggledBook))
    by (rewrite Hbooks2; apply lookup_insert_eq).
  destruct (Hinv bookId _ Hlent) as [Hone _].
  specialize (Hone eq_refl). rewrite Hcount in Hone. lia.
Qed.

Lemma toggle_then_borrow_witness :
  exists db1 db2 response,
    updateBook (online 8 "t8") "b1" (toggle_updates (mkBook "b1" (novel BORROWED)))
      None lent = (db1, Resolved tt) /\
    BookDoc.status <$> books db1 !! "b1" = Some AVAILABLE /\
    transactions db1 = transactions lent /\
    borrowBook (online 9 "t2") "b1" budi db1 = (db2, Resolved response) /\
    BookDoc.status <$> books db2 !! "b1" = Some BORROWED /\
    transactions db2 !! "t1" = Some (loan "b1" "u1" TX_BORROWED None) /\
    outstanding "b1" db2 = S (outstanding "b1" lent) /\
    2 <= outstanding "b1" db2 /\
    ~ spec_invariant db2.
Proof.
  apply (toggle_then_borrow (online 8 "t8") (online 9 "t2") "b1"
           (novel BORROWED) "t1" (loan "b1" "u1" TX_BORROWED None) budi lent);
    reflexivity.
Defined.
